(** * Session-authenticated REST backend for projects and tasks

    A shallow embedding of [server.js]: the authentication middleware
    [requireAuth], the thirteen route handlers and the route table.

    The handlers are asynchronous JavaScript functions that talk to three
    collaborators: the Sequelize models [Project], [Task] and [User] of
    [./database/setup], the [bcryptjs] library and the session object of
    [express-session].  Each interaction is a [call]; a handler is a
    finite tree of calls ([prog]) whose continuation receives either the
    value the call resolved to or the exception it raised.  [try]/[catch]
    is a function on such trees.  A tree is run against an interpreter of
    the calls ([run]); theorems that hold for every interpreter hold for
    whatever the collaborators do. *)

From Stdlib Require Import String ZArith List Bool Lia.
Import ListNotations.
Open Scope string_scope.
Open Scope Z_scope.

(** ** JavaScript values

    Numbers are integers: the server only handles keys, row counts and
    status codes. *)

#[warnings="-register-all"]
Inductive value : Type :=
| VUndefined
| VNull
| VBool (b : bool)
| VNum (n : Z)
| VStr (s : string)
| VObj (fields : list (string * value))
| VArr (items : list value).

(** [!v] is [negb (truthy v)]. *)
Definition truthy (v : value) : bool :=
  match v with
  | VUndefined | VNull => false
  | VBool b => b
  | VNum n => negb (n =? 0)
  | VStr s => negb (s =? "")%string
  | VObj _ | VArr _ => true
  end.

Fixpoint lookup (k : string) (fields : list (string * value)) : value :=
  match fields with
  | [] => VUndefined
  | (k', v) :: rest => if (k =? k')%string then v else lookup k rest
  end.

(** [v.k] for a [v] that is neither [null] nor [undefined]; a key that is
    absent reads as [undefined]. *)
Definition prop (v : value) (k : string) : value :=
  match v with
  | VObj fields => lookup k fields
  | _ => VUndefined
  end.

Definition keys (v : value) : list string :=
  match v with
  | VObj fields => map fst fields
  | _ => []
  end.

Definition nullish (v : value) : bool :=
  match v with
  | VUndefined | VNull => true
  | _ => false
  end.

(** [v === 0] *)
Definition is_zero (v : value) : bool :=
  match v with
  | VNum n => n =? 0
  | _ => false
  end.

Definition TypeError (msg : string) : value :=
  VObj [("name", VStr "TypeError"); ("message", VStr msg)].

(** ** Calls to the collaborators *)

Inductive model : Type := Project | Task | User.

Inductive call : Type :=
| FindAll (m : model)                              (* M.findAll() *)
| FindByPk (m : model) (id : value)                (* M.findByPk(id) *)
| FindOne (m : model) (field : string) (v : value) (* M.findOne({ where: { field: v } }) *)
| Create (m : model) (values : value)              (* M.create(values) *)
| Update (m : model) (values : value) (id : value) (* M.update(values, { where: { id } }) *)
| Destroy (m : model) (id : value)                 (* M.destroy({ where: { id } }) *)
| BcryptHash (password : value) (saltRounds : Z)   (* bcrypt.hash(password, saltRounds) *)
| BcryptCompare (password hash : value)            (* bcrypt.compare(password, hash) *)
| SessionSet (field : string) (v : value)          (* req.session.field = v *)
| SessionDestroy                                   (* req.session.destroy(cb) *)
| ConsoleError (msg : string) (err : value).       (* console.error(msg, err) *)

Inductive outcome (A : Type) : Type :=
| Returns (a : A)
| Throws (e : value).
Arguments Returns {A} a.
Arguments Throws {A} e.

Inductive prog (A : Type) : Type :=
| Ret (a : A)
| Throw (e : value)
| Do (c : call) (k : outcome value -> prog A).
Arguments Ret {A} a.
Arguments Throw {A} e.
Arguments Do {A} c k.

Fixpoint bind {A B : Type} (p : prog A) (f : A -> prog B) : prog B :=
  match p with
  | Ret a => f a
  | Throw e => Throw e
  | Do c k => Do c (fun o => bind (k o) f)
  end.

(** [try { p } catch (error) { h error }] *)
Fixpoint try_catch {A : Type} (p : prog A) (h : value -> prog A) : prog A :=
  match p with
  | Ret a => Ret a
  | Throw e => h e
  | Do c k => Do c (fun o => try_catch (k o) h)
  end.

(** [await c]: a rejected promise is a thrown exception. *)
Definition await (c : call) : prog value :=
  Do c (fun o => match o with Returns v => Ret v | Throws e => Throw e end).

Notation "x <- p ;; q" := (bind p (fun x => q))
  (at level 61, p at next level, right associativity).
Notation "p ;;; q" := (bind p (fun _ => q))
  (at level 61, right associativity).

(** [const { ... } = v] throws when [v] is [null] or [undefined]. *)
Definition destructure (v : value) : prog unit :=
  if nullish v then Throw (TypeError "Cannot destructure") else Ret tt.

(** [v.k] throws when [v] is [null] or [undefined]. *)
Definition member (v : value) (k : string) : prog value :=
  if nullish v then Throw (TypeError "Cannot read properties") else Ret (prop v k).

(** [const [x] = v]: the first element of an iterable. *)
Definition first_of (v : value) : prog value :=
  match v with
  | VArr items => Ret (hd VUndefined items)
  | VStr s => Ret (match s with
                   | EmptyString => VUndefined
                   | String c _ => VStr (String c EmptyString)
                   end)
  | _ => Throw (TypeError "is not iterable")
  end.

(** [console.error] returns [undefined]. *)
Definition console_error (msg : string) (err : value) : prog unit :=
  Do (ConsoleError msg err) (fun _ => Ret tt).

(** ** Requests and responses *)

(** The three fields the server keeps in [req.session]. *)
Record Session : Type := mkSession {
  userId : value;
  username : value;
  userEmail : value
}.

(** [session] is [None] when the session middleware left [req.session]
    unset. [user] is [req.user], [undefined] until [requireAuth] sets it. *)
Record request : Type := mkRequest {
  session : option Session;
  user : value;
  body : value;
  params_id : string
}.

Record response : Type := mkResponse {
  status : Z;
  json : value
}.

Definition res_status_json (code : Z) (v : value) : prog response :=
  Ret (mkResponse code v).

(** [res.json(v)] without [res.status]: the status stays 200. *)
Definition res_json (v : value) : prog response :=
  res_status_json 200 v.

Definition error_body (msg : string) : value := VObj [("error", VStr msg)].
Definition message_body (msg : string) : value := VObj [("message", VStr msg)].

(** [catch (error) { console.error(logmsg, error); res.status(500).json({ error: msg }) }] *)
Definition fail_with (logmsg msg : string) (error : value) : prog response :=
  console_error logmsg error ;;;
  res_status_json 500 (error_body msg).

(** ** Authentication middleware *)

(** [req.session && req.session.userId], as a condition. *)
Definition logged_in (req : request) : bool :=
  match session req with
  | None => false
  | Some s => truthy (userId s)
  end.

Definition identity (s : Session) : value :=
  VObj [("id", userId s); ("username", username s); ("email", userEmail s)].

Definition set_user (req : request) (u : value) : request :=
  mkRequest (session req) u (body req) (params_id req).

Definition requireAuth (req : request) (next : request -> prog response)
  : prog response :=
  match session req with
  | Some s =>
      if truthy (userId s)
      then next (set_user req (identity s))
      else res_status_json 401 (error_body "Authentication required. Please log in.")
  | None => res_status_json 401 (error_body "Authentication required. Please log in.")
  end.

(** ** Project routes *)

Definition project_fields (b : value) : list (string * value) :=
  [("name", prop b "name"); ("description", prop b "description");
   ("status", prop b "status"); ("dueDate", prop b "dueDate")].

Definition get_projects_try (req : request) : prog response :=
  projects <- await (FindAll Project) ;;
  res_json projects.

Definition get_projects (req : request) : prog response :=
  try_catch (get_projects_try req)
    (fail_with "Error fetching projects:" "Failed to fetch projects").

Definition get_project_try (req : request) : prog response :=
  project <- await (FindByPk Project (VStr (params_id req))) ;;
  if negb (truthy project)
  then res_status_json 404 (error_body "Project not found")
  else res_json project.

Definition get_project (req : request) : prog response :=
  try_catch (get_project_try req)
    (fail_with "Error fetching project:" "Failed to fetch project").

Definition post_projects_try (req : request) : prog response :=
  destructure (body req) ;;;
  owner <- member (user req) "id" ;;
  newProject <- await (Create Project
                  (VObj (project_fields (body req) ++ [("userId", owner)]))) ;;
  res_status_json 201 newProject.

Definition post_projects (req : request) : prog response :=
  try_catch (post_projects_try req)
    (fail_with "Error creating project:" "Failed to create project").

Definition put_project_try (req : request) : prog response :=
  destructure (body req) ;;;
  result <- await (Update Project (VObj (project_fields (body req)))
                     (VStr (params_id req))) ;;
  updatedRowsCount <- first_of result ;;
  if is_zero updatedRowsCount
  then res_status_json 404 (error_body "Project not found")
  else
    updatedProject <- await (FindByPk Project (VStr (params_id req))) ;;
    res_json updatedProject.

Definition put_project (req : request) : prog response :=
  try_catch (put_project_try req)
    (fail_with "Error updating project:" "Failed to update project").

Definition delete_project_try (req : request) : prog response :=
  deletedRowsCount <- await (Destroy Project (VStr (params_id req))) ;;
  if is_zero deletedRowsCount
  then res_status_json 404 (error_body "Project not found")
  else res_json (message_body "Project deleted successfully").

Definition delete_project (req : request) : prog response :=
  try_catch (delete_project_try req)
    (fail_with "Error deleting project:" "Failed to delete project").

(** ** Task routes *)

Definition task_fields (b : value) : list (string * value) :=
  [("title", prop b "title"); ("description", prop b "description");
   ("completed", prop b "completed"); ("priority", prop b "priority");
   ("dueDate", prop b "dueDate"); ("projectId", prop b "projectId")].

Definition get_tasks_try (req : request) : prog response :=
  tasks <- await (FindAll Task) ;;
  res_json tasks.

Definition get_tasks (req : request) : prog response :=
  try_catch (get_tasks_try req)
    (fail_with "Error fetching tasks:" "Failed to fetch tasks").

Definition get_task_try (req : request) : prog response :=
  task <- await (FindByPk Task (VStr (params_id req))) ;;
  if negb (truthy task)
  then res_status_json 404 (error_body "Task not found")
  else res_json task.

Definition get_task (req : request) : prog response :=
  try_catch (get_task_try req)
    (fail_with "Error fetching task:" "Failed to fetch task").

Definition post_tasks_try (req : request) : prog response :=
  destructure (body req) ;;;
  newTask <- await (Create Task (VObj (task_fields (body req)))) ;;
  res_status_json 201 newTask.

Definition post_tasks (req : request) : prog response :=
  try_catch (post_tasks_try req)
    (fail_with "Error creating task:" "Failed to create task").

Definition put_task_try (req : request) : prog response :=
  destructure (body req) ;;;
  result <- await (Update Task (VObj (task_fields (body req)))
                     (VStr (params_id req))) ;;
  updatedRowsCount <- first_of result ;;
  if is_zero updatedRowsCount
  then res_status_json 404 (error_body "Task not found")
  else
    updatedTask <- await (FindByPk Task (VStr (params_id req))) ;;
    res_json updatedTask.

Definition put_task (req : request) : prog response :=
  try_catch (put_task_try req)
    (fail_with "Error updating task:" "Failed to update task").

Definition delete_task_try (req : request) : prog response :=
  deletedRowsCount <- await (Destroy Task (VStr (params_id req))) ;;
  if is_zero deletedRowsCount
  then res_status_json 404 (error_body "Task not found")
  else res_json (message_body "Task deleted successfully").

Definition delete_task (req : request) : prog response :=
  try_catch (delete_task_try req)
    (fail_with "Error deleting task:" "Failed to delete task").

(** ** User routes *)

Definition public_user (u : value) : prog value :=
  id <- member u "id" ;;
  name <- member u "username" ;;
  mail <- member u "email" ;;
  Ret (VObj [("id", id); ("username", name); ("email", mail)]).

Definition post_register_try (req : request) : prog response :=
  destructure (body req) ;;;
  existingUser <- await (FindOne User "email" (prop (body req) "email")) ;;
  if truthy existingUser
  then res_status_json 400 (error_body "User with this email already exists")
  else
    hashedPassword <- await (BcryptHash (prop (body req) "password") 10) ;;
    newUser <- await (Create User
                 (VObj [("username", prop (body req) "username");
                        ("email", prop (body req) "email");
                        ("password", hashedPassword)])) ;;
    u <- public_user newUser ;;
    res_status_json 201
      (VObj [("message", VStr "User registered successfully"); ("user", u)]).

Definition post_register (req : request) : prog response :=
  try_catch (post_register_try req)
    (fail_with "Error registering user:" "Failed to register user").

(** [req.session.field = v] throws when [req.session] is unset. *)
Definition session_set (req : request) (field : string) (v : value) : prog unit :=
  match session req with
  | None => Throw (TypeError "Cannot set properties of undefined")
  | Some _ => Do (SessionSet field v) (fun _ => Ret tt)
  end.

Definition post_login_try (req : request) : prog response :=
  destructure (body req) ;;;
  user <- await (FindOne User "email" (prop (body req) "email")) ;;
  if negb (truthy user)
  then res_status_json 401 (error_body "Invalid email or password")
  else
    isPasswordValid <- await (BcryptCompare (prop (body req) "password")
                                            (prop user "password")) ;;
    if negb (truthy isPasswordValid)
    then res_status_json 401 (error_body "Invalid email or password")
    else
      session_set req "userId" (prop user "id") ;;;
      session_set req "username" (prop user "username") ;;;
      session_set req "userEmail" (prop user "email") ;;;
      res_status_json 200
        (VObj [("message", VStr "Login successful");
               ("user", VObj [("id", prop user "id");
                              ("username", prop user "username");
                              ("email", prop user "email")])]).

Definition post_login (req : request) : prog response :=
  try_catch (post_login_try req)
    (fail_with "Error logging in user" "Failed to login").

(** [req.session.destroy(cb)]: the callback receives the error, if any.
    There is no [try] around it. *)
Definition post_logout (req : request) : prog response :=
  match session req with
  | None => Throw (TypeError "Cannot read properties of undefined")
  | Some _ =>
      Do SessionDestroy (fun o =>
        match o with
        | Throws err =>
            console_error "Error destroying the session" err ;;;
            res_status_json 500 (error_body "Failed to logout")
        | Returns _ => res_status_json 200 (message_body "Logout successful")
        end)
  end.

(** ** The route table *)

Inductive method : Type := GET | POST | PUT | DELETE.

Inductive route : Type :=
| GetProjects | GetProject | PostProjects | PutProject | DeleteProject
| GetTasks | GetTask | PostTasks | PutTask | DeleteTask
| PostRegister | PostLogin | PostLogout.

(** In the order of registration. *)
Definition routes : list route :=
  [GetProjects; GetProject; PostProjects; PutProject; DeleteProject;
   GetTasks; GetTask; PostTasks; PutTask; DeleteTask;
   PostRegister; PostLogin; PostLogout].

Definition verb (r : route) : method :=
  match r with
  | GetProjects | GetProject | GetTasks | GetTask => GET
  | PostProjects | PostTasks | PostRegister | PostLogin | PostLogout => POST
  | PutProject | PutTask => PUT
  | DeleteProject | DeleteTask => DELETE
  end.

Definition path (r : route) : string :=
  match r with
  | GetProjects | PostProjects => "/api/projects"
  | GetProject | PutProject | DeleteProject => "/api/projects/:id"
  | GetTasks | PostTasks => "/api/tasks"
  | GetTask | PutTask | DeleteTask => "/api/tasks/:id"
  | PostRegister => "/api/register"
  | PostLogin => "/api/login"
  | PostLogout => "/api/logout"
  end.

Definition middleware : Type :=
  request -> (request -> prog response) -> prog response.

(** The functions registered between the path and the handler. *)
Definition middlewares (r : route) : list middleware :=
  match r with
  | GetProjects | PostProjects => [requireAuth]
  | _ => []
  end.

Definition gated (r : route) : bool :=
  match middlewares r with
  | [] => false
  | _ :: _ => true
  end.

Definition handler (r : route) : request -> prog response :=
  match r with
  | GetProjects => get_projects
  | GetProject => get_project
  | PostProjects => post_projects
  | PutProject => put_project
  | DeleteProject => delete_project
  | GetTasks => get_tasks
  | GetTask => get_task
  | PostTasks => post_tasks
  | PutTask => put_task
  | DeleteTask => delete_task
  | PostRegister => post_register
  | PostLogin => post_login
  | PostLogout => post_logout
  end.

(** The message of the 500 response of a handler. *)
Definition failure_message (r : route) : string :=
  match r with
  | GetProjects => "Failed to fetch projects"
  | GetProject => "Failed to fetch project"
  | PostProjects => "Failed to create project"
  | PutProject => "Failed to update project"
  | DeleteProject => "Failed to delete project"
  | GetTasks => "Failed to fetch tasks"
  | GetTask => "Failed to fetch task"
  | PostTasks => "Failed to create task"
  | PutTask => "Failed to update task"
  | DeleteTask => "Failed to delete task"
  | PostRegister => "Failed to register user"
  | PostLogin => "Failed to login"
  | PostLogout => "Failed to logout"
  end.

(** Express runs the middlewares in order, each one deciding whether the
    next runs. *)
Definition serve (r : route) (req : request) : prog response :=
  fold_right (fun (m : middleware) next req' => m req' next)
             (handler r) (middlewares r) req.

(** ** Running a handler *)

Definition interp (S : Type) : Type := call -> S -> outcome value * S.

Fixpoint run {S A : Type} (I : interp S) (p : prog A) (s : S) : outcome A * S :=
  match p with
  | Ret a => (Returns a, s)
  | Throw e => (Throws e, s)
  | Do c k => let (o, s') := I c s in run I (k o) s'
  end.

(** The calls a handler makes, in order. *)
Fixpoint calls {S A : Type} (I : interp S) (p : prog A) (s : S) : list call :=
  match p with
  | Ret _ | Throw _ => []
  | Do c k => let (o, s') := I c s in c :: calls I (k o) s'
  end.

(** The exceptions the collaborators raised while a handler ran, each with
    the call that raised it. *)
Fixpoint raised {S A : Type} (I : interp S) (p : prog A) (s : S)
  : list (call * value) :=
  match p with
  | Ret _ | Throw _ => []
  | Do c k =>
      let (o, s') := I c s in
      match o with
      | Returns _ => raised I (k o) s'
      | Throws e => (c, e) :: raised I (k o) s'
      end
  end.

Definition is_persistence (c : call) : bool :=
  match c with
  | FindAll _ | FindByPk _ _ | FindOne _ _ _
  | Create _ _ | Update _ _ _ | Destroy _ _ => true
  | _ => false
  end.

Definition with_session (req : request) (s : option Session) : request :=
  mkRequest s (user req) (body req) (params_id req).

Definition unauthenticated : response :=
  mkResponse 401 (error_body "Authentication required. Please log in.").


(** ** The store

    None of [./database/setup], Sequelize, [bcryptjs] and
    [express-session] is part of [server.js]. The definitions of this
    section give the calls one concrete meaning, an in-memory store, for
    the properties that speak of the rows of a table. *)

(** Modelled from the spec: when a stored email is "already present".
    The store compares the value it is asked for with the stored one,
    structurally. *)
Fixpoint value_eqb (a b : value) : bool :=
  match a, b with
  | VUndefined, VUndefined => true
  | VNull, VNull => true
  | VBool x, VBool y => Bool.eqb x y
  | VNum x, VNum y => x =? y
  | VStr x, VStr y => (x =? y)%string
  | VObj f, VObj g =>
      (fix fields_eqb (f g : list (string * value)) : bool :=
         match f, g with
         | [], [] => true
         | (k, v) :: f', (k', v') :: g' =>
             (k =? k')%string && value_eqb v v' && fields_eqb f' g'
         | _, _ => false
         end) f g
  | VArr l, VArr m =>
      (fix items_eqb (l m : list value) : bool :=
         match l, m with
         | [], [] => true
         | v :: l', v' :: m' => value_eqb v v' && items_eqb l' m'
         | _, _ => false
         end) l m
  | _, _ => false
  end.

Definition digit (c : Ascii.ascii) : option Z :=
  let n := Z.of_nat (Ascii.nat_of_ascii c) in
  if (48 <=? n) && (n <=? 57) then Some (n - 48) else None.

Fixpoint digits (s : string) (acc : Z) : option Z :=
  match s with
  | EmptyString => Some acc
  | String c rest =>
      match digit c with
      | Some d => digits rest (10 * acc + d)
      | None => None
      end
  end.

(** Modelled from the spec: lookup "by id" in the persistence
    collaborator ([./database/setup] is not part of the sources). The key
    an argument denotes is a number, or the number a string of decimal
    digits (a path parameter) spells. *)
Definition key_of (k : value) : option Z :=
  match k with
  | VNum n => Some n
  | VStr EmptyString => None
  | VStr s => digits s 0
  | _ => None
  end.

Definition row : Type := list (string * value).

(** Modelled from the spec: the rows a key designates are those whose
    [id] column is that key. *)
Definition has_key (k : value) (r : row) : bool :=
  match key_of k, lookup "id" r with
  | Some n, VNum m => n =? m
  | _, _ => false
  end.

(** Modelled from the spec: a table of the persistence collaborator
    ([./database/setup] is not part of the sources), "a conventional
    relational store accessed through a data-access layer providing
    find/create/update/delete-by-key operations". Rows are kept in the
    order of creation; [next_id] is the key the next row receives. *)
Record table : Type := mkTable {
  rows : list row;
  next_id : Z
}.

Definition or_null (r : option row) : value :=
  match r with
  | Some fields => VObj fields
  | None => VNull
  end.

(** Modelled from the spec: List "returns ordered sequence of all E
    records". *)
Definition find_all (t : table) : value :=
  VArr (map VObj (rows t)).

(** Modelled from the spec: Get by id, "record if found", absent
    otherwise. *)
Definition find_by_pk (k : value) (t : table) : value :=
  or_null (find (has_key k) (rows t)).

(** Modelled from the spec: Login and Register "lookup by email". *)
Definition find_one (field : string) (v : value) (t : table) : value :=
  or_null (find (fun r => value_eqb (lookup field r) v) (rows t)).

Definition fields_of (v : value) : row :=
  match v with
  | VObj fields => fields
  | _ => []
  end.

(** Modelled from the spec: Create stores the fields it is given ("absent
    fields pass through as null/undefined to the persistence layer") under
    a fresh key and returns the created record. *)
Definition create (values : value) (t : table) : value * table :=
  let r := ("id", VNum (next_id t)) :: fields_of values in
  (VObj r, mkTable (rows t ++ [r]) (next_id t + 1)).

(** Modelled from the spec: writing one column of a row, and all the
    columns an update provides. *)
Fixpoint set_field (k : string) (v : value) (r : row) : row :=
  match r with
  | [] => [(k, v)]
  | (k', v') :: rest =>
      if (k =? k')%string then (k, v) :: rest else (k', v') :: set_field k v rest
  end.

Definition assign (values : row) (r : row) : row :=
  fold_left (fun acc kv => set_field (fst kv) (snd kv) acc) values r.

(** Modelled from the spec: Update "applies a full-field update using
    provided body values (fields not sent become overwritten with
    undefined/null, since there is no partial-merge logic)" and reports
    the number of rows affected. *)
Definition update (values : value) (k : value) (t : table) : value * table :=
  (VArr [VNum (Z.of_nat (length (filter (has_key k) (rows t))))],
   mkTable (map (fun r => if has_key k r then assign (fields_of values) r else r)
                (rows t))
           (next_id t)).

(** Modelled from the spec: Delete removes the rows of the key and reports
    the number of rows affected. *)
Definition destroy (k : value) (t : table) : value * table :=
  (VNum (Z.of_nat (length (filter (has_key k) (rows t)))),
   mkTable (filter (fun r => negb (has_key k r)) (rows t)) (next_id t)).

(** The [bcryptjs] library, a parameter of the store: [hash] and
    [compare], each resolving to a value or raising. *)
Record Bcrypt : Type := mkBcrypt {
  bcrypt_hash : value -> Z -> outcome value;
  bcrypt_compare : value -> value -> outcome value
}.

(** Modelled from the spec: everything outside [server.js], which is the
    three tables of the persistence collaborator, the session of the
    request being served and what was written to the console. *)
Record world : Type := mkWorld {
  projects : table;
  tasks : table;
  users : table;
  stored_session : option Session;
  console : list (string * value)
}.

Definition table_of (m : model) (w : world) : table :=
  match m with
  | Project => projects w
  | Task => tasks w
  | User => users w
  end.

Definition set_table (m : model) (t : table) (w : world) : world :=
  match m with
  | Project => mkWorld t (tasks w) (users w) (stored_session w) (console w)
  | Task => mkWorld (projects w) t (users w) (stored_session w) (console w)
  | User => mkWorld (projects w) (tasks w) t (stored_session w) (console w)
  end.

Definition session_store (field : string) (v : value) (s : Session) : Session :=
  if (field =? "userId")%string then mkSession v (username s) (userEmail s)
  else if (field =? "username")%string then mkSession (userId s) v (userEmail s)
  else if (field =? "userEmail")%string then mkSession (userId s) (username s) v
  else s.

(** Modelled from the spec: the answers of the collaborators
    ([./database/setup], [express-session], the console), none of which is
    part of the sources. No call of the store fails. *)
Definition memory (B : Bcrypt) : interp world :=
  fun c w =>
    match c with
    | FindAll m => (Returns (find_all (table_of m w)), w)
    | FindByPk m k => (Returns (find_by_pk k (table_of m w)), w)
    | FindOne m field v => (Returns (find_one field v (table_of m w)), w)
    | Create m values =>
        let (r, t) := create values (table_of m w) in
        (Returns r, set_table m t w)
    | Update m values k =>
        let (n, t) := update values k (table_of m w) in
        (Returns n, set_table m t w)
    | Destroy m k =>
        let (n, t) := destroy k (table_of m w) in
        (Returns n, set_table m t w)
    | BcryptHash password rounds => (bcrypt_hash B password rounds, w)
    | BcryptCompare password hash => (bcrypt_compare B password hash, w)
    | SessionSet field v =>
        (Returns VUndefined,
         mkWorld (projects w) (tasks w) (users w)
                 (option_map (session_store field v) (stored_session w))
                 (console w))
    | SessionDestroy =>
        (Returns VUndefined,
         mkWorld (projects w) (tasks w) (users w) None (console w))
    | ConsoleError msg err =>
        (Returns VUndefined,
         mkWorld (projects w) (tasks w) (users w) (stored_session w)
                 (console w ++ [(msg, err)]))
    end.

(** A stand-in for [bcryptjs] on strings: the hash of a password is the
    password behind a fixed prefix; anything but a string is an illegal
    argument. *)
Definition toy_bcrypt : Bcrypt :=
  mkBcrypt
    (fun password _ =>
       match password with
       | VStr p => Returns (VStr ("$2a$10$" ++ p))
       | _ => Throws (VStr "Illegal arguments")
       end)
    (fun password hash =>
       match password, hash with
       | VStr p, VStr h => Returns (VBool (("$2a$10$" ++ p) =? h)%string)
       | _, _ => Throws (VStr "Illegal arguments")
       end).

Definition empty_table : table := mkTable [] 1.

Definition empty_world : world :=
  mkWorld empty_table empty_table empty_table None [].

(** ** Sample requests, sessions and stores *)

(** A request without a session. *)
Definition anonymous (b : value) (id : string) : request :=
  mkRequest None VUndefined b id.

(** The session of a user who logged in. *)
Definition alice : Session :=
  mkSession (VNum 7) (VStr "alice") (VStr "alice@example.com").

(** A session whose [userId] is 0. *)
Definition zero_session : Session :=
  mkSession (VNum 0) (VStr "a") (VStr "a@x.com").

Definition register_request (name email password : string) : request :=
  anonymous (VObj [("username", VStr name); ("email", VStr email);
                   ("password", VStr password)]) "".

Definition login_request (email password : string) : request :=
  anonymous (VObj [("email", VStr email); ("password", VStr password)]) "".

(** The store after one registration. *)
Definition one_user : world :=
  snd (run (memory toy_bcrypt)
         (serve PostRegister
            (anonymous (VObj [("username", VStr "a"); ("email", VStr "a@x.com");
                              ("password", VStr "p")]) ""))
         empty_world).

(** A store holding one project. *)
Definition one_project : world :=
  mkWorld (mkTable [[("id", VNum 1); ("name", VStr "n"); ("status", VStr "open");
                     ("userId", VNum 7)]] 2)
          empty_table empty_table None [].

(** An interpreter whose store raises [e] at every call. *)
Definition broken_store (e : value) : interp unit :=
  fun c s => (if is_persistence c then Throws e else Returns VUndefined, s).

(** Project read, update and delete by id, and the five task routes. *)
Definition open_resource_routes : list route :=
  [GetProject; PutProject; DeleteProject;
   GetTasks; GetTask; PostTasks; PutTask; DeleteTask].

(** The columns an update of a project, or of a task, writes. *)
Definition project_columns : list string :=
  ["name"; "description"; "status"; "dueDate"].

Definition task_columns : list string :=
  ["title"; "description"; "completed"; "priority"; "dueDate"; "projectId"].

(** ** Vocabulary of the routes *)

(** The status codes a route can answer with. *)
Definition statuses (r : route) : list Z :=
  match r with
  | GetProjects => [200; 401; 500]
  | PostProjects => [201; 401; 500]
  | GetTasks => [200; 500]
  | PostTasks => [201; 500]
  | GetProject | GetTask | PutProject | PutTask
  | DeleteProject | DeleteTask => [200; 404; 500]
  | PostRegister => [201; 400; 500]
  | PostLogin => [200; 401; 500]
  | PostLogout => [200; 500]
  end.

(** An interpreter that answers every call the same way. *)
Definition always (o : outcome value) : interp unit :=
  fun _ s => (o, s).

Definition with_alice : request :=
  mkRequest (Some alice) VUndefined (VObj []) "1".

(** The calls that change a table, and the table they change. *)
Definition is_write (c : call) : bool :=
  match c with
  | Create _ _ | Update _ _ _ | Destroy _ _ => true
  | _ => false
  end.

Definition model_of (c : call) : option model :=
  match c with
  | FindAll m | FindByPk m _ | FindOne m _ _
  | Create m _ | Update m _ _ | Destroy m _ => Some m
  | _ => None
  end.

(** The model behind a route. *)
Definition resource (r : route) : option model :=
  match r with
  | GetProjects | GetProject | PostProjects | PutProject | DeleteProject =>
      Some Project
  | GetTasks | GetTask | PostTasks | PutTask | DeleteTask => Some Task
  | PostRegister | PostLogin => Some User
  | PostLogout => None
  end.

Definition mutating_routes : list route :=
  [PostProjects; PutProject; DeleteProject;
   PostTasks; PutTask; DeleteTask; PostRegister].

(** The object a call hands to the store to be written. *)
Definition sent_values (c : call) : option value :=
  match c with
  | Create _ v | Update _ v _ => Some v
  | _ => None
  end.

(** The columns a route writes. *)
Definition written_columns (r : route) : list string :=
  match r with
  | PostProjects => ["name"; "description"; "status"; "dueDate"; "userId"]
  | PutProject => ["name"; "description"; "status"; "dueDate"]
  | PostTasks | PutTask =>
      ["title"; "description"; "completed"; "priority"; "dueDate"; "projectId"]
  | PostRegister => ["username"; "email"; "password"]
  | _ => []
  end.

Definition is_session_write (c : call) : bool :=
  match c with
  | SessionSet _ _ => true
  | _ => false
  end.

(** The session of a visitor who has not logged in. *)
Definition blank_session : Session :=
  mkSession VUndefined VUndefined VUndefined.

(** A store whose only user has the key 0. *)
Definition user_zero : world :=
  mkWorld empty_table empty_table
          (mkTable [[("id", VNum 0); ("username", VStr "z");
                     ("email", VStr "z@x.com"); ("password", VStr "$2a$10$p")]] 1)
          (Some blank_session) [].

(** ** Well-formed stores *)

Definition id_below (bound : Z) (r : row) : bool :=
  match lookup "id" r with
  | VNum n => n <? bound
  | _ => false
  end.

(** The keys of a table are numbers below [next_id], each used once. *)
Definition table_ok (t : table) : Prop :=
  forallb (id_below (next_id t)) (rows t) = true /\
  NoDup (map (lookup "id") (rows t)).

Definition world_ok (w : world) : Prop :=
  table_ok (projects w) /\ table_ok (tasks w) /\ table_ok (users w).

Definition leaves_id (values : row) : bool :=
  forallb (fun kv => negb (fst kv =? "id")%string) values.

(** A call that does not write the [id] column of an existing row. *)
Definition keeps_ids (c : call) : bool :=
  match c with
  | Update _ values _ => leaves_id (fields_of values)
  | _ => true
  end.

Definition with_body (req : request) (b : value) : request :=
  mkRequest (session req) (user req) b (params_id req).

(** The routes whose handler reads [req.body]. *)
Definition body_routes : list route :=
  [PostProjects; PutProject; PostTasks; PutTask; PostRegister; PostLogin].


(** * Properties *)

(** ** Running [bind] and [try_catch] *)

Section Run.
Context {S : Type} (I : interp S).

Lemma run_bind {A B : Type} (p : prog A) (f : A -> prog B) (s : S) :
  run I (bind p f) s =
  match run I p s with
  | (Returns a, s') => run I (f a) s'
  | (Throws e, s') => (Throws e, s')
  end.
Proof.
  revert s. induction p as [a | e | c k IH]; intros s; simpl; auto.
  destruct (I c s) as [o s']. apply IH.
Qed.

Lemma run_try_catch {A : Type} (p : prog A) (h : value -> prog A) (s : S) :
  run I (try_catch p h) s =
  match run I p s with
  | (Returns a, s') => (Returns a, s')
  | (Throws e, s') => run I (h e) s'
  end.
Proof.
  revert s. induction p as [a | e | c k IH]; intros s; simpl; auto.
  destruct (I c s) as [o s']. apply IH.
Qed.

End Run.

(** One step of a handler: the answer of the interpreter, or the branch
    taken. *)
Ltac step :=
  match goal with
  | |- context [let (_, _) := ?I ?c ?s in _] =>
      let E := fresh "E" in destruct (I c s) as [[? | ?] ?] eqn:E; cbn
  | |- context [if ?b then _ else _] =>
      let E := fresh "E" in destruct b eqn:E; cbn
  | |- context [match ?v with VUndefined => _ | _ => _ end] =>
      let E := fresh "E" in destruct v eqn:E; cbn
  | |- context [match ?v with EmptyString => _ | _ => _ end] =>
      let E := fresh "E" in destruct v eqn:E; cbn
  | |- context [match ?v with Some _ => _ | None => _ end] =>
      let E := fresh "E" in destruct v eqn:E; cbn
  end.

Ltac unfold_handlers :=
  unfold serve, handler, middlewares, fold_right, requireAuth,
    get_projects, get_project, post_projects, put_project, delete_project,
    get_tasks, get_task, post_tasks, put_task, delete_task,
    post_register, post_login, post_logout,
    get_projects_try, get_project_try, post_projects_try, put_project_try,
    delete_project_try, get_tasks_try, get_task_try, post_tasks_try,
    put_task_try, delete_task_try, post_register_try, post_login_try,
    public_user, session_set, fail_with, console_error, destructure, member,
    first_of, await, res_json, res_status_json in *.

(** Every route but logout answers, whatever the collaborators do: no
    exception leaves a handler that has a [catch]. *)
Lemma serve_always_responds (S : Type) (I : interp S) (r : route)
    (req : request) (s : S) :
  r <> PostLogout ->
  exists resp s', run I (serve r req) s = (Returns resp, s').
Proof.
  intros N. destruct r; try (exfalso; apply N; reflexivity);
    unfold_handlers; cbn; repeat step; eauto.
Qed.

(** ** The gate *)

Lemma requireAuth_logged_in req next :
  requireAuth req next =
  if logged_in req
  then match session req with
       | Some s => next (set_user req (identity s))
       | None => Ret unauthenticated
       end
  else Ret unauthenticated.
Proof.
  unfold requireAuth, logged_in.
  destruct (session req) as [s |]; [destruct (truthy (userId s)) |]; reflexivity.
Qed.

(** C4. On a gated route a request that is not logged in is answered 401
    "Authentication required" and nothing else happens: the handler is not
    entered and no call is made. A request that is logged in reaches the
    handler, and the request the handler receives has [req.user] set to
    the identity [{id, username, email}] read from its session, with its
    session, body and path parameter as they were; the gate passes that
    same request to whatever comes next. *)
Theorem gate_halts_or_attaches_identity (r : route) (req : request) :
  gated r = true ->
  (logged_in req = false ->
     serve r req = Ret unauthenticated /\
     (forall next, requireAuth req next = Ret unauthenticated) /\
     forall (S : Type) (I : interp S) (s : S),
       run I (serve r req) s = (Returns unauthenticated, s) /\
       calls I (serve r req) s = []) /\
  (logged_in req = true ->
     exists ses, session req = Some ses /\
       user (set_user req (identity ses))
         = VObj [("id", userId ses); ("username", username ses);
                 ("email", userEmail ses)] /\
       (forall next,
          requireAuth req next =
          next (mkRequest (Some ses)
                  (VObj [("id", userId ses); ("username", username ses);
                         ("email", userEmail ses)])
                  (body req) (params_id req))) /\
       serve r req =
       handler r (mkRequest (Some ses)
                    (VObj [("id", userId ses); ("username", username ses);
                           ("email", userEmail ses)])
                    (body req) (params_id req))).
Proof.
  intros G.
  assert (E : serve r req = requireAuth req (handler r))
    by (destruct r; try discriminate G; reflexivity).
  rewrite E. unfold logged_in, requireAuth.
  destruct (session req) as [ses |] eqn:Ses.
  - destruct (truthy (userId ses)) eqn:T.
    + split; [discriminate |]. intros _. exists ses.
      unfold set_user, identity. rewrite Ses.
      repeat split; reflexivity.
    + split; [| discriminate]. intros _.
      split; [reflexivity |]. split; [reflexivity |].
      intros; split; reflexivity.
  - split; [| discriminate]. intros _.
    split; [reflexivity |]. split; [reflexivity |].
    intros; split; reflexivity.
Qed.

Lemma gate_halts_or_attaches_identity_witness :
  gated PostProjects = true /\
  logged_in (anonymous VUndefined "") = false /\
  serve PostProjects (anonymous VUndefined "") = Ret unauthenticated /\
  logged_in (with_session (anonymous VUndefined "") (Some alice)) = true /\
  exists ses,
    serve PostProjects (with_session (anonymous VUndefined "") (Some alice))
    = handler PostProjects
        (mkRequest (Some ses)
           (VObj [("id", userId ses); ("username", username ses);
                  ("email", userEmail ses)])
           VUndefined "").
Proof.
  split; [reflexivity |]. split; [reflexivity |]. split; [| split].
  - apply (gate_halts_or_attaches_identity PostProjects (anonymous VUndefined ""));
      reflexivity.
  - reflexivity.
  - destruct (gate_halts_or_attaches_identity PostProjects
                (with_session (anonymous VUndefined "") (Some alice)) eq_refl)
      as (_ & H).
    destruct (H eq_refl) as (ses & _ & _ & _ & R).
    exists ses. exact R.
Defined.

(** C10. A session that exists is not enough: the gate lets a request
    through exactly when [req.session.userId] is truthy. With a falsy
    [userId] (0, null, the empty string, undefined, false) the answer is
    401 and the next function is never applied, so no identity is
    attached. *)
Theorem gate_admits_iff_userId_truthy (req : request) (ses : Session) :
  session req = Some ses ->
  logged_in req = truthy (userId ses) /\
  (truthy (userId ses) = false ->
     forall next, requireAuth req next = Ret unauthenticated) /\
  (truthy (userId ses) = true ->
     forall next, requireAuth req next = next (set_user req (identity ses))) /\
  (In (userId ses) [VNum 0; VNull; VStr ""; VUndefined; VBool false] ->
     truthy (userId ses) = false).
Proof.
  intros E. unfold requireAuth, logged_in. rewrite E.
  split; [reflexivity |].
  destruct (truthy (userId ses)) eqn:T.
  - split; [discriminate |]. split; [reflexivity |].
    simpl. intros H.
    repeat (destruct H as [H | H]; [rewrite <- H in T; discriminate |]).
    destruct H.
  - split; [reflexivity |]. split; [discriminate | reflexivity].
Qed.

Lemma gate_admits_iff_userId_truthy_witness :
  session (with_session (anonymous VUndefined "") (Some zero_session))
    = Some zero_session /\
  requireAuth (with_session (anonymous VUndefined "") (Some zero_session))
              (handler GetProjects)
    = Ret unauthenticated.
Proof.
  split; [reflexivity |].
  destruct (gate_admits_iff_userId_truthy
              (with_session (anonymous VUndefined "") (Some zero_session))
              zero_session eq_refl) as (_ & H & _).
  apply H. reflexivity.
Defined.

(** ** Which routes are gated *)

(** C1. [requireAuth] is registered on GET /api/projects and on
    POST /api/projects and on no other route. The handlers of
    GET, PUT and DELETE /api/projects/:id and of every /api/tasks route
    are entered directly: what they do does not depend on the session of
    the request, and they never answer 401. *)
Theorem only_project_list_and_create_are_gated :
  (forall r, In r routes) /\
  (forall r, (r = GetProjects \/ r = PostProjects) <-> gated r = true) /\
  (forall r, gated r = true -> forall req,
     serve r req = requireAuth req (handler r)) /\
  (forall r, In r open_resource_routes ->
     (verb r, path r) <> (GET, "/api/projects") /\
     (verb r, path r) <> (POST, "/api/projects") /\
     forall req,
       serve r req = handler r req /\
       (forall ses ses',
          serve r (with_session req ses) = serve r (with_session req ses')) /\
       (forall (S : Type) (I : interp S) (s s' : S) (resp : response),
          run I (serve r req) s = (Returns resp, s') -> status resp <> 401)).
Proof.
  split; [intros r; destruct r; simpl; tauto |].
  split.
  { intros r; split.
    - intros [-> | ->]; reflexivity.
    - destruct r; intros G; try discriminate G; auto. }
  split; [intros r G req; destruct r; try discriminate G; reflexivity |].
  intros r H. simpl in H.
  repeat (destruct H as [<- | H];
    [split; [discriminate |]; split; [discriminate |];
     intros req; split; [reflexivity |]; split; [reflexivity |];
     intros S I s s' resp;
     unfold_handlers; cbn; repeat step;
     intros R; inversion R; subst; cbn; discriminate |]).
  destruct H.
Qed.

Lemma only_project_list_and_create_are_gated_witness :
  In PutTask open_resource_routes /\
  serve PutTask (anonymous (VObj [("title", VStr "t")]) "1")
    = handler PutTask (anonymous (VObj [("title", VStr "t")]) "1").
Proof.
  split; [simpl; tauto |].
  destruct only_project_list_and_create_are_gated as (_ & _ & _ & H).
  apply (H PutTask). simpl; tauto.
Defined.

(** ** Project creation *)

(** C2. When an authenticated user creates a project, the only record
    the handler asks the store to create is a project whose [userId] is
    the [userId] of the session. The record is built from the [name],
    [description], [status] and [dueDate] of the body and from the
    session; a [userId] (or any other key) in the body is not read. *)
Theorem created_project_is_owned_by_session_user
    (S : Type) (I : interp S) (req : request) (ses : Session) (s : S) :
  session req = Some ses ->
  truthy (userId ses) = true ->
  (forall m o, In (Create m o) (calls I (serve PostProjects req) s) ->
     m = Project /\
     prop o "userId" = userId ses /\
     o = VObj [("name", prop (body req) "name");
               ("description", prop (body req) "description");
               ("status", prop (body req) "status");
               ("dueDate", prop (body req) "dueDate");
               ("userId", userId ses)]) /\
  (nullish (body req) = false ->
     exists o, hd_error (calls I (serve PostProjects req) s)
               = Some (Create Project o) /\
               prop o "userId" = userId ses) /\
  (forall resp s', run I (serve PostProjects req) s = (Returns resp, s') ->
     status resp = 201 ->
     exists o s0, prop o "userId" = userId ses /\
       I (Create Project o) s = (Returns (json resp), s0)).
Proof.
  intros E T. unfold_handlers. rewrite E, T. cbn.
  destruct (nullish (body req)) eqn:N; cbn.
  - split; [| split].
    + destruct (I _ s) as [o s1]. cbn. intros m o' [H | []]. discriminate H.
    + discriminate.
    + destruct (I _ s) as [o s1]. cbn. intros resp s' R; inversion R; subst.
      discriminate.
  - match goal with
    | |- context [I ?c s] => destruct (I c s) as [[v | e] s1] eqn:C
    end; cbn.
    + split; [| split].
      * intros m o [H | []]. inversion H; subst. auto.
      * intros _. eexists. split; reflexivity.
      * intros resp s' R _. inversion R; subst. cbn.
        eexists. eexists. split; [| exact C]. reflexivity.
    + split; [| split].
      * destruct (I _ s1) as [o s2]. cbn.
        intros m o' [H | [H | []]]; [| discriminate H].
        inversion H; subst. auto.
      * intros _. eexists. split; reflexivity.
      * destruct (I _ s1) as [o s2]. cbn.
        intros resp s' R; inversion R; subst. discriminate.
Qed.

Lemma created_project_is_owned_by_session_user_witness :
  session (with_session
             (anonymous (VObj [("name", VStr "n"); ("userId", VNum 99)]) "")
             (Some alice)) = Some alice /\
  truthy (userId alice) = true /\
  exists o,
    hd_error (calls (memory toy_bcrypt)
                (serve PostProjects
                   (with_session
                      (anonymous (VObj [("name", VStr "n"); ("userId", VNum 99)]) "")
                      (Some alice)))
                empty_world)
    = Some (Create Project o) /\
    prop o "userId" = VNum 7.
Proof.
  split; [reflexivity |]. split; [reflexivity |].
  destruct (created_project_is_owned_by_session_user world (memory toy_bcrypt)
              (with_session
                 (anonymous (VObj [("name", VStr "n"); ("userId", VNum 99)]) "")
                 (Some alice))
              alice empty_world eq_refl eq_refl) as (_ & H & _).
  apply H. reflexivity.
Defined.

(** ** Login *)




(** ** Registration *)

(** C6. Whatever the store and [bcrypt] answer and whatever the password,
    a 201 response of registration carries a message and a user object
    whose only keys are [id], [username] and [email], read from the record
    the store returned; it has no [password] key. *)
Theorem registered_user_has_no_password
    (S : Type) (I : interp S) (req : request) (s s' : S) (resp : response) :
  run I (serve PostRegister req) s = (Returns resp, s') ->
  status resp = 201 ->
  exists newUser,
    json resp =
      VObj [("message", VStr "User registered successfully");
            ("user", VObj [("id", prop newUser "id");
                           ("username", prop newUser "username");
                           ("email", prop newUser "email")])] /\
    keys (json resp) = ["message"; "user"] /\
    keys (prop (json resp) "user") = ["id"; "username"; "email"] /\
    prop (prop (json resp) "user") "password" = VUndefined /\
    prop (json resp) "password" = VUndefined.
Proof.
  unfold_handlers. cbn. repeat step;
    intros R; inversion R; subst; cbn; try discriminate; intros _.
  all: eexists; repeat split; reflexivity.
Qed.

Lemma registered_user_has_no_password_witness :
  exists newUser,
    VObj [("message", VStr "User registered successfully");
          ("user", VObj [("id", VNum 1); ("username", VStr "a");
                         ("email", VStr "a@x.com")])] =
    VObj [("message", VStr "User registered successfully");
          ("user", VObj [("id", prop newUser "id");
                         ("username", prop newUser "username");
                         ("email", prop newUser "email")])].
Proof.
  destruct (registered_user_has_no_password world (memory toy_bcrypt)
              (register_request "a" "a@x.com" "p") empty_world one_user
              (mkResponse 201
                 (VObj [("message", VStr "User registered successfully");
                        ("user", VObj [("id", VNum 1); ("username", VStr "a");
                                       ("email", VStr "a@x.com")])]))
              eq_refl eq_refl) as (newUser & H & _).
  exists newUser. exact H.
Defined.

(** ** Failures of the store *)

(** C9. If any call to the store made while a request is served raises an
    exception, whatever its value, the request is answered with status 500
    and the fixed message of the route; the exception goes to the console
    and the body of the response is the same for every exception. *)
Theorem store_failure_is_generic_500
    (S : Type) (I : interp S) (r : route) (req : request) (s : S)
    (c : call) (e : value) :
  In (c, e) (raised I (serve r req) s) ->
  is_persistence c = true ->
  fst (run I (serve r req) s)
    = Returns (mkResponse 500 (VObj [("error", VStr (failure_message r))])) /\
  exists logmsg, In (ConsoleError logmsg e) (calls I (serve r req) s).
Proof.
  destruct r; unfold_handlers; cbn; repeat step;
    intros H P; simpl in H;
    repeat match goal with
           | H : _ \/ _ |- _ => destruct H as [H | H]
           | H : False |- _ => destruct H
           | H : (_, _) = (_, _) |- _ => inversion H; clear H; subst
           end;
    try discriminate P;
    (split; [reflexivity | eexists; simpl; eauto 6]).
Qed.

Lemma store_failure_is_generic_500_witness :
  In (FindAll Task, VStr "SQLITE_BUSY")
     (raised (broken_store (VStr "SQLITE_BUSY"))
             (serve GetTasks (anonymous VUndefined "")) tt) /\
  fst (run (broken_store (VStr "SQLITE_BUSY"))
           (serve GetTasks (anonymous VUndefined "")) tt)
    = Returns (mkResponse 500 (VObj [("error", VStr "Failed to fetch tasks")])).
Proof.
  split; [simpl; auto |].
  apply (store_failure_is_generic_500 unit (broken_store (VStr "SQLITE_BUSY"))
           GetTasks (anonymous VUndefined "") tt
           (FindAll Task) (VStr "SQLITE_BUSY")).
  - simpl. auto.
  - reflexivity.
Defined.

(** ** The tables *)

Lemma value_eqb_refl : forall v, value_eqb v v = true.
Proof.
  fix IH 1. intros [| | b | n | s | f | l]; simpl; auto.
  - apply Bool.eqb_reflx.
  - apply Z.eqb_refl.
  - apply String.eqb_refl.
  - induction f as [| [k v] f IHf]; [reflexivity |].
    rewrite String.eqb_refl, IH, IHf. reflexivity.
  - induction l as [| v l IHl]; [reflexivity |].
    rewrite IH, IHl. reflexivity.
Qed.

Lemma lookup_set_field (k k' : string) (v : value) (r : row) :
  lookup k (set_field k' v r) = if (k =? k')%string then v else lookup k r.
Proof.
  induction r as [| [k0 v0] r IH]; simpl.
  - reflexivity.
  - destruct (String.eqb_spec k' k0) as [-> | N]; simpl.
    + destruct (String.eqb_spec k k0); reflexivity.
    + rewrite IH. destruct (String.eqb_spec k k0) as [-> | N'];
        [| reflexivity].
      destruct (String.eqb_spec k0 k') as [E | _]; [| reflexivity].
      exfalso. apply N. symmetry. exact E.
Qed.

Section Tables.
Variable k : value.

Lemma filter_no_match (l : list row) :
  (forall r, In r l -> has_key k r = false) ->
  filter (has_key k) l = [] /\
  filter (fun r => negb (has_key k r)) l = l /\
  forall g, map (fun r => if has_key k r then g r else r) l = l.
Proof.
  induction l as [| r l IH]; intros H; simpl; [auto |].
  rewrite (H r (or_introl eq_refl)). simpl.
  destruct IH as (F & N & M); [intros r' I; apply H; right; exact I |].
  rewrite F, N. repeat split. intros g. rewrite M. reflexivity.
Qed.

Lemma find_none_no_match (l : list row) :
  find (has_key k) l = None -> forall r, In r l -> has_key k r = false.
Proof.
  intros F r I. destruct (has_key k r) eqn:E; [| reflexivity].
  exfalso. apply (find_none _ _ F) in I. congruence.
Qed.

Lemma filter_match_nonempty (l : list row) (r : row) :
  find (has_key k) l = Some r ->
  (Z.of_nat (length (filter (has_key k) l)) =? 0) = false.
Proof.
  intros F. apply find_some in F as [I E].
  assert (I' : In r (filter (has_key k) l)) by (apply filter_In; auto).
  destruct (filter (has_key k) l); [destruct I' |].
  apply Z.eqb_neq. simpl length. lia.
Qed.

Lemma find_after_filter_out (l : list row) :
  find (has_key k) (filter (fun r => negb (has_key k r)) l) = None.
Proof.
  induction l as [| r l IH]; simpl; [reflexivity |].
  destruct (has_key k r) eqn:E; simpl; [exact IH |].
  rewrite E. exact IH.
Qed.

Lemma find_after_map (g : row -> row) (l : list row) :
  (forall r, has_key k r = true -> has_key k (g r) = true) ->
  find (has_key k) (map (fun r => if has_key k r then g r else r) l)
  = option_map g (find (has_key k) l).
Proof.
  intros G. induction l as [| r l IH]; simpl; [reflexivity |].
  destruct (has_key k r) eqn:E.
  - rewrite (G r E). reflexivity.
  - rewrite E. exact IH.
Qed.
End Tables.

Lemma has_key_set_field (k : value) (f : string) (v : value) (r : row) :
  (f =? "id")%string = false ->
  has_key k (set_field f v r) = has_key k r.
Proof.
  intros N. unfold has_key. rewrite lookup_set_field.
  rewrite String.eqb_sym, N. reflexivity.
Qed.

Lemma set_table_same (m : model) (w : world) :
  set_table m (mkTable (rows (table_of m w)) (next_id (table_of m w))) w = w.
Proof. destruct w as [[] [] [] ? ?], m; reflexivity. Qed.

Lemma table_of_set_table (m : model) (t : table) (w : world) :
  table_of m (set_table m t w) = t.
Proof. destruct m; reflexivity. Qed.

(** ** Delete *)

(** C8. Deleting a project or a task whose id no row has is answered 404
    and leaves the store as it was. Deleting one whose id exists is
    answered 200 with the message "... deleted successfully" and removes
    the rows of that id and no other; the same request served again is
    answered 404. *)
Theorem delete_removes_the_record_or_404
    (B : Bcrypt) (w : world) (req : request)
    (r : route) (m : model) (name : string) :
  (r, m, name) = (DeleteProject, Project, "Project") \/
  (r, m, name) = (DeleteTask, Task, "Task") ->
  (find (has_key (VStr (params_id req))) (rows (table_of m w)) = None ->
     run (memory B) (serve r req) w
     = (Returns (mkResponse 404 (VObj [("error", VStr (name ++ " not found"))])),
        w)) /\
  (forall r0,
     find (has_key (VStr (params_id req))) (rows (table_of m w)) = Some r0 ->
     exists w',
       run (memory B) (serve r req) w
       = (Returns (mkResponse 200
            (VObj [("message", VStr (name ++ " deleted successfully"))])), w') /\
       (forall x, In x (rows (table_of m w')) <->
                  In x (rows (table_of m w)) /\
                  has_key (VStr (params_id req)) x = false) /\
       run (memory B) (serve r req) w'
       = (Returns (mkResponse 404 (VObj [("error", VStr (name ++ " not found"))])),
          w')).
Proof.
  intros [E | E]; inversion E; subst; clear E; unfold_handlers; cbn;
    unfold destroy; cbn.
  all: split.
  all: try (intros F;
            destruct (filter_no_match _ _ (find_none_no_match _ _ F))
              as (F0 & F1 & _);
            rewrite F0, F1; cbn;
            destruct w as [[? ?] [? ?] [? ?] ? ?]; reflexivity).
  all: intros r0 F; rewrite (filter_match_nonempty _ _ _ F); cbn;
    eexists; split; [reflexivity |]; cbn; split;
    [ intros x; rewrite filter_In, negb_true_iff; reflexivity |].
  all: pose proof (find_after_filter_out (VStr (params_id req))) as G;
    match goal with
    | |- context [filter (has_key ?k) (filter ?p ?l)] =>
        destruct (filter_no_match k (filter p l)
                    (find_none_no_match _ _ (G l))) as (F0 & F1 & _);
        rewrite F0, F1
    end; reflexivity.
Qed.

Lemma delete_removes_the_record_or_404_witness :
  exists w',
    run (memory toy_bcrypt) (serve DeleteTask (anonymous VUndefined "1"))
        (mkWorld empty_table (mkTable [[("id", VNum 1); ("title", VStr "t")]] 2)
                 empty_table None [])
    = (Returns (mkResponse 200 (VObj [("message", VStr "Task deleted successfully")])),
       w') /\
    run (memory toy_bcrypt) (serve DeleteTask (anonymous VUndefined "1")) w'
    = (Returns (mkResponse 404 (VObj [("error", VStr "Task not found")])), w').
Proof.
  destruct (delete_removes_the_record_or_404 toy_bcrypt
              (mkWorld empty_table (mkTable [[("id", VNum 1); ("title", VStr "t")]] 2)
                       empty_table None [])
              (anonymous VUndefined "1") DeleteTask Task "Task"
              (or_intror eq_refl)) as (_ & H).
  destruct (H [("id", VNum 1); ("title", VStr "t")] eq_refl) as (w' & R & _ & R').
  exists w'. split; [exact R | exact R'].
Defined.

(** ** Update *)

Lemma lookup_absent (f : string) (r : row) :
  ~ In f (map fst r) -> lookup f r = VUndefined.
Proof.
  induction r as [| [k v] r IH]; simpl; [reflexivity |].
  intros N. destruct (String.eqb_spec f k) as [-> | _].
  - exfalso. apply N. left. reflexivity.
  - apply IH. intros I. apply N. right. exact I.
Qed.

Lemma prop_absent (b : value) (f : string) :
  ~ In f (keys b) -> prop b f = VUndefined.
Proof.
  destruct b; simpl; auto. apply lookup_absent.
Qed.

Lemma has_key_assign (k : value) (values : row) :
  forallb (fun kv => negb (fst kv =? "id")%string) values = true ->
  forall r, has_key k (assign values r) = has_key k r.
Proof.
  unfold assign. induction values as [| [f v] values IH]; simpl; intros H r.
  - reflexivity.
  - apply andb_true_iff in H as [H1 H2]. rewrite (IH H2).
    apply has_key_set_field. apply negb_true_iff. exact H1.
Qed.

Lemma lookup_assign (f : string) (values : row) :
  forall r,
    lookup f (assign values r) =
    match find (fun kv => (f =? fst kv)%string) (rev values) with
    | Some kv => snd kv
    | None => lookup f r
    end.
Proof.
  unfold assign. induction values as [| [k v] values IH]; simpl; intros r.
  - reflexivity.
  - rewrite IH, lookup_set_field. clear IH.
    induction (rev values) as [| [k' v'] l IHl]; simpl.
    + destruct (f =? k)%string; reflexivity.
    + destruct (f =? k')%string; [reflexivity | exact IHl].
Qed.

Lemma lookup_assign_project (b : value) (f : string) (r : row) :
  lookup f (assign (project_fields b) r) =
  if existsb (String.eqb f) project_columns then prop b f else lookup f r.
Proof.
  rewrite lookup_assign. cbn.
  repeat match goal with
         | |- context [(f =? ?c)%string] =>
             destruct (String.eqb_spec f c) as [-> | ?]; cbn
         end; reflexivity.
Qed.

Lemma lookup_assign_task (b : value) (f : string) (r : row) :
  lookup f (assign (task_fields b) r) =
  if existsb (String.eqb f) task_columns then prop b f else lookup f r.
Proof.
  rewrite lookup_assign. cbn.
  repeat match goal with
         | |- context [(f =? ?c)%string] =>
             destruct (String.eqb_spec f c) as [-> | ?]; cbn
         end; reflexivity.
Qed.

Lemma existsb_eqb_In (f : string) (l : list string) :
  existsb (String.eqb f) l = true <-> In f l.
Proof.
  rewrite existsb_exists. split.
  - intros (x & I & E). apply String.eqb_eq in E. subst. exact I.
  - intros I. exists f. split; [exact I | apply String.eqb_refl].
Qed.

(** What an update leaves in a table, for either model. *)
Lemma updated_table (k : value) (values : row) (columns : list string)
    (b : value) (l : list row) (r0 : row) :
  forallb (fun kv => negb (fst kv =? "id")%string) values = true ->
  (forall f r, lookup f (assign values r) =
               if existsb (String.eqb f) columns then prop b f else lookup f r) ->
  find (has_key k) l = Some r0 ->
  let l' := map (fun r => if has_key k r then assign values r else r) l in
  find (has_key k) l' = Some (assign values r0) /\
  (forall x, In x l' -> has_key k x = true ->
     forall f, In f columns -> lookup f x = prop b f) /\
  (forall f, In f columns -> lookup f (assign values r0) = prop b f) /\
  (forall f, In f columns -> ~ In f (keys b) ->
     lookup f (assign values r0) = VUndefined) /\
  (forall f, ~ In f columns -> lookup f (assign values r0) = lookup f r0) /\
  length l' = length l.
Proof.
  intros NoId L F l'.
  assert (C : forall f r, In f columns -> lookup f (assign values r) = prop b f).
  { intros f r I. rewrite L.
    apply existsb_eqb_In in I. rewrite I. reflexivity. }
  split; [| split; [| split; [| split; [| split]]]].
  - unfold l'. rewrite find_after_map, F; [reflexivity |].
    intros r H. rewrite has_key_assign; assumption.
  - intros x I H f If. unfold l' in I. apply in_map_iff in I as (y & E & _).
    destruct (has_key k y) eqn:K; subst x; [apply C; exact If |].
    congruence.
  - intros f I. apply C. exact I.
  - intros f I A. rewrite C by exact I. apply prop_absent. exact A.
  - intros f N. rewrite L.
    destruct (existsb (String.eqb f) columns) eqn:E; [| reflexivity].
    apply existsb_eqb_In in E. contradiction.
  - unfold l'. apply length_map.
Qed.

(** C7. An update of a project or a task whose id no row has is answered
    404 and leaves the store as it was. Otherwise the answer is 200 with
    the record fetched again by id after the update, and in every row of
    that id each updatable column holds the value the body has under that
    name, [undefined] when the body does not have it; the other columns
    and the number of rows are unchanged. *)
Theorem put_replaces_every_column_or_404
    (B : Bcrypt) (w : world) (req : request)
    (r : route) (m : model) (name : string) (columns : list string) :
  (r, m, name, columns) = (PutProject, Project, "Project", project_columns) \/
  (r, m, name, columns) = (PutTask, Task, "Task", task_columns) ->
  nullish (body req) = false ->
  (forall (S : Type) (I : interp S) (s : S),
     hd_error (calls I (serve r req) s)
     = Some (Update m
               (VObj (map (fun c => (c, prop (body req) c)) columns))
               (VStr (params_id req)))) /\
  (find (has_key (VStr (params_id req))) (rows (table_of m w)) = None ->
     run (memory B) (serve r req) w
     = (Returns (mkResponse 404 (VObj [("error", VStr (name ++ " not found"))])),
        w)) /\
  (forall r0,
     find (has_key (VStr (params_id req))) (rows (table_of m w)) = Some r0 ->
     exists w' r1,
       run (memory B) (serve r req) w = (Returns (mkResponse 200 (VObj r1)), w') /\
       find (has_key (VStr (params_id req))) (rows (table_of m w')) = Some r1 /\
       (forall x, In x (rows (table_of m w')) ->
          has_key (VStr (params_id req)) x = true ->
          forall f, In f columns -> lookup f x = prop (body req) f) /\
       (forall f, In f columns -> lookup f r1 = prop (body req) f) /\
       (forall f, In f columns -> ~ In f (keys (body req)) ->
          lookup f r1 = VUndefined) /\
       (forall f, ~ In f columns -> lookup f r1 = lookup f r0) /\
       length (rows (table_of m w')) = length (rows (table_of m w))).
Proof.
  intros [E | E] N; inversion E; subst; clear E; unfold_handlers;
    rewrite N; (split; [intros S I s; cbn; destruct (I _ s); reflexivity |]);
    cbn -[assign project_fields task_fields]; unfold update;
    cbn -[assign project_fields task_fields].
  all: split.
  all: try (intros F;
            destruct (filter_no_match _ _ (find_none_no_match _ _ F))
              as (F0 & _ & F1);
            rewrite F0, F1; cbn;
            destruct w as [[? ?] [? ?] [? ?] ? ?]; reflexivity).
  - intros r0 F. rewrite (filter_match_nonempty _ _ _ F).
    cbn -[assign project_fields].
    destruct (updated_table (VStr (params_id req)) (project_fields (body req))
                project_columns (body req) _ r0 eq_refl
                (lookup_assign_project (body req)) F) as (F' & H).
    eexists. eexists.
    split; [unfold find_by_pk; cbn [rows]; rewrite F'; reflexivity |].
    cbn -[assign project_fields]. split; [exact F' | exact H].
  - intros r0 F. rewrite (filter_match_nonempty _ _ _ F).
    cbn -[assign task_fields].
    destruct (updated_table (VStr (params_id req)) (task_fields (body req))
                task_columns (body req) _ r0 eq_refl
                (lookup_assign_task (body req)) F) as (F' & H).
    eexists. eexists.
    split; [unfold find_by_pk; cbn [rows]; rewrite F'; reflexivity |].
    cbn -[assign task_fields]. split; [exact F' | exact H].
Qed.

Lemma put_replaces_every_column_or_404_witness :
  nullish (VObj [("status", VStr "done")]) = false /\
  exists w',
    run (memory toy_bcrypt)
        (serve PutProject (anonymous (VObj [("status", VStr "done")]) "1"))
        one_project
    = (Returns (mkResponse 200
         (VObj [("id", VNum 1); ("name", VUndefined); ("status", VStr "done");
                ("userId", VNum 7); ("description", VUndefined);
                ("dueDate", VUndefined)])), w').
Proof.
  split; [reflexivity |].
  destruct (put_replaces_every_column_or_404 toy_bcrypt one_project
              (anonymous (VObj [("status", VStr "done")]) "1")
              PutProject Project "Project" project_columns
              (or_introl eq_refl) eq_refl) as (_ & _ & H).
  destruct (H [("id", VNum 1); ("name", VStr "n"); ("status", VStr "open");
               ("userId", VNum 7)] eq_refl) as (w' & r1 & R & _).
  exists w'. rewrite R. vm_compute in R. inversion R. reflexivity.
Defined.

(** ** Registration against the store *)

Lemma find_email (email : value) (l : list row) (r : row) :
  In r l -> lookup "email" r = email ->
  exists r', find (fun x => value_eqb (lookup "email" x) email) l = Some r'.
Proof.
  intros I E.
  destruct (find (fun x => value_eqb (lookup "email" x) email) l) eqn:F.
  - eexists. reflexivity.
  - apply (find_none _ _ F) in I. rewrite E, value_eqb_refl in I. discriminate.
Qed.

Lemma register_existing_email (B : Bcrypt) (req : request) (w : world) :
  nullish (body req) = false ->
  (exists r, In r (rows (users w)) /\
             lookup "email" r = prop (body req) "email") ->
  run (memory B) (serve PostRegister req) w
  = (Returns (mkResponse 400
       (VObj [("error", VStr "User with this email already exists")])), w).
Proof.
  intros N (r & I & E). unfold_handlers. rewrite N. cbn.
  unfold find_one. destruct (find_email _ _ _ I E) as (r' & F).
  rewrite F. reflexivity.
Qed.

(** C5. A registration whose email some stored user already has is
    answered 400 and changes nothing in the store. Hence, when a
    registration is answered 201, a second registration with the same
    email is answered 400, and after both the user table has exactly one
    row more than before the first. *)
Theorem duplicate_email_is_rejected
    (B : Bcrypt) (w : world) (req : request) :
  nullish (body req) = false ->
  ((exists r, In r (rows (users w)) /\
              lookup "email" r = prop (body req) "email") ->
     run (memory B) (serve PostRegister req) w
     = (Returns (mkResponse 400
          (VObj [("error", VStr "User with this email already exists")])), w)) /\
  (forall resp w1,
     run (memory B) (serve PostRegister req) w = (Returns resp, w1) ->
     status resp = 201 ->
     length (rows (users w1)) = S (length (rows (users w))) /\
     forall req',
       nullish (body req') = false ->
       prop (body req') "email" = prop (body req) "email" ->
       run (memory B) (serve PostRegister req') w1
       = (Returns (mkResponse 400
            (VObj [("error", VStr "User with this email already exists")])), w1)).
Proof.
  intros N.
  split; [apply register_existing_email; exact N |].
  intros resp w1 R Created.
  assert (W : exists h,
             w1 = set_table User
                    (mkTable (rows (users w) ++
                                [[("id", VNum (next_id (users w)));
                                  ("username", prop (body req) "username");
                                  ("email", prop (body req) "email");
                                  ("password", h)]])
                             (next_id (users w) + 1)) w).
  { revert R Created. unfold_handlers. rewrite N. cbn. unfold find_one.
    match goal with
    | |- context [find ?f ?l] => destruct (find f l) as [r |]
    end; cbn.
    - intros R; inversion R; subst. discriminate.
    - destruct (bcrypt_hash B (prop (body req) "password") 10) as [h | e]; cbn.
      + intros R _. inversion R; subst; clear R. exists h. reflexivity.
      + intros R; inversion R; subst. discriminate. }
  destruct W as (h & ->). cbn. split.
  - rewrite length_app. simpl. lia.
  - intros req' N' E'. apply register_existing_email; [exact N' |]. cbn.
    eexists. split; [apply in_or_app; right; left; reflexivity |].
    cbn. symmetry. exact E'.
Qed.

Lemma duplicate_email_is_rejected_witness :
  nullish (body (register_request "a" "a@x.com" "p")) = false /\
  length (rows (users one_user)) = 1%nat /\
  run (memory toy_bcrypt) (serve PostRegister (register_request "b" "a@x.com" "q"))
      one_user
  = (Returns (mkResponse 400
       (VObj [("error", VStr "User with this email already exists")])), one_user).
Proof.
  split; [reflexivity |].
  destruct (duplicate_email_is_rejected toy_bcrypt empty_world
              (register_request "a" "a@x.com" "p") eq_refl) as (_ & H).
  destruct (H (mkResponse 201
                 (VObj [("message", VStr "User registered successfully");
                        ("user", VObj [("id", VNum 1); ("username", VStr "a");
                                       ("email", VStr "a@x.com")])]))
              one_user eq_refl eq_refl) as (L & D).
  split; [exact L |].
  apply D; reflexivity.
Defined.

(** * Further properties of the routes *)

(** ** Status codes *)

Ltac reach_with o q :=
  exists o, q; eexists; split; [reflexivity | reflexivity].

Ltac reach :=
  first [ reach_with (Throws (A := value) VNull) with_alice
        | reach_with (Returns (VArr [VNum 1])) with_alice
        | reach_with (Returns (VArr [VNum 0])) with_alice
        | reach_with (Returns (VNum 0)) with_alice
        | reach_with (Returns (VNum 0)) (anonymous (VObj []) "1") ].

(** X1. Each route answers with one of a fixed set of status codes,
    whatever the collaborators do, and each code of the set is answered
    for some request and some behaviour of the collaborators. *)
Theorem route_status_codes (r : route) :
  (forall (S : Type) (I : interp S) (req : request) (s s' : S) (resp : response),
     run I (serve r req) s = (Returns resp, s') ->
     In (status resp) (statuses r)) /\
  (forall code, In code (statuses r) ->
     exists (o : outcome value) (req : request) (resp : response),
       run (always o) (serve r req) tt = (Returns resp, tt) /\
       status resp = code).
Proof.
  split.
  - intros S I req s s' resp.
    destruct r; unfold_handlers; cbn; repeat step;
      intros R; inversion R; subst; simpl; tauto.
  - intros code H.
    destruct r; simpl in H;
      repeat (destruct H as [<- | H]; [reach |]); destruct H.
Qed.

Lemma route_status_codes_witness :
  exists (o : outcome value) (req : request) (resp : response),
    run (always o) (serve PutTask req) tt = (Returns resp, tt) /\
    status resp = 404.
Proof.
  destruct (route_status_codes PutTask) as (_ & H).
  apply H. simpl. tauto.
Defined.

(** ** Exceptions that escape *)

(** X2. An exception leaves the server only from POST /api/logout, and
    only when [req.session] is unset; there it always does, before any
    call is made. *)
Theorem only_logout_without_session_throws
    (S : Type) (I : interp S) (r : route) (req : request) (s : S) :
  (exists e s', run I (serve r req) s = (Throws e, s')) <->
  (r = PostLogout /\ session req = None).
Proof.
  split.
  - intros (e & s' & R). revert R.
    destruct r; unfold_handlers; cbn; repeat step;
      intros R; inversion R; subst; auto.
  - intros [-> E]. unfold_handlers. rewrite E.
    eexists. eexists. reflexivity.
Qed.

(** ** Listing projects *)

(** X3. GET /api/projects answers every logged-in user alike: the request
    is served by one [findAll] without a condition, so the answer does not
    depend on who is logged in, and it is 200 with whatever [findAll]
    resolved to. *)
Theorem project_list_ignores_the_caller
    (S : Type) (I : interp S) (req : request) (ses ses' : Session) (s : S) :
  truthy (userId ses) = true ->
  truthy (userId ses') = true ->
  run I (serve GetProjects (with_session req (Some ses))) s
  = run I (serve GetProjects (with_session req (Some ses'))) s /\
  (forall c, In c (calls I (serve GetProjects (with_session req (Some ses))) s) ->
     c = FindAll Project \/ exists msg e, c = ConsoleError msg e) /\
  (forall v s1, I (FindAll Project) s = (Returns v, s1) ->
     run I (serve GetProjects (with_session req (Some ses))) s
     = (Returns (mkResponse 200 v), s1)).
Proof.
  intros T T'. unfold_handlers. cbn. rewrite T, T'. cbn.
  split; [reflexivity |]. split.
  - destruct (I (FindAll Project) s) as [[v | e] s1]; cbn.
    + intros c [<- | []]. auto.
    + destruct (I _ s1). cbn. intros c [<- | [<- | []]]; eauto.
  - intros v s1 E. rewrite E. reflexivity.
Qed.

Lemma project_list_ignores_the_caller_witness :
  run (memory toy_bcrypt)
      (serve GetProjects (with_session with_alice (Some alice))) one_project
  = run (memory toy_bcrypt)
      (serve GetProjects
         (with_session with_alice
            (Some (mkSession (VNum 8) (VStr "bob") (VStr "bob@example.com")))))
      one_project.
Proof.
  apply (project_list_ignores_the_caller world (memory toy_bcrypt) with_alice
           alice (mkSession (VNum 8) (VStr "bob") (VStr "bob@example.com"))
           one_project);
    reflexivity.
Defined.

(** ** What is written *)

(** X4. A request writes to the store at most once. Only the creating,
    updating and deleting routes and registration write at all; reading
    routes, login and logout never write. Every call to the store, read or
    write, is on the model of the route: a project route never touches
    tasks or users, and a task route never looks up the project a task
    names. *)
Theorem at_most_one_write_per_request
    (S : Type) (I : interp S) (r : route) (req : request) (s : S) :
  (length (filter is_write (calls I (serve r req) s)) <= 1)%nat /\
  (forall c, In c (calls I (serve r req) s) -> is_write c = true ->
     In r mutating_routes /\ model_of c = resource r) /\
  (forall c m, In c (calls I (serve r req) s) -> model_of c = Some m ->
     resource r = Some m).
Proof.
  destruct r; unfold_handlers; cbn; repeat step;
    (split; [simpl; lia |]);
    (split; [intros c H W | intros c m H W]); simpl in H;
    repeat match goal with
           | H : _ \/ _ |- _ => destruct H as [H | H]
           | H : False |- _ => destruct H
           end;
    subst c; try discriminate W; simpl; try tauto;
    inversion W; reflexivity.
Qed.

(** X5. The object handed to [create] or [update] has exactly the columns
    the route names: a key of the body outside them, such as [id],
    [userId] or [createdAt], never reaches the store. *)
Theorem only_named_columns_are_written
    (S : Type) (I : interp S) (r : route) (req : request) (s : S)
    (c : call) (v : value) :
  In c (calls I (serve r req) s) ->
  sent_values c = Some v ->
  keys v = written_columns r.
Proof.
  destruct r; unfold_handlers; cbn; repeat step;
    intros H W; simpl in H;
    repeat match goal with
           | H : _ \/ _ |- _ => destruct H as [H | H]
           | H : False |- _ => destruct H
           end;
    subst c; try discriminate W; inversion W; subst; reflexivity.
Qed.

Lemma only_named_columns_are_written_witness :
  keys (VObj [("title", VStr "t"); ("description", VUndefined);
              ("completed", VUndefined); ("priority", VUndefined);
              ("dueDate", VUndefined); ("projectId", VUndefined)])
  = written_columns PostTasks.
Proof.
  apply (only_named_columns_are_written world (memory toy_bcrypt) PostTasks
           (anonymous (VObj [("title", VStr "t"); ("id", VNum 9);
                             ("userId", VNum 3)]) "")
           empty_world
           (Create Task
              (VObj [("title", VStr "t"); ("description", VUndefined);
                     ("completed", VUndefined); ("priority", VUndefined);
                     ("dueDate", VUndefined); ("projectId", VUndefined)]))).
  - simpl. auto.
  - reflexivity.
Defined.

Lemma only_logout_without_session_throws_witness :
  exists e s',
    run (memory toy_bcrypt) (serve PostLogout (anonymous VUndefined "")) empty_world
    = (Throws e, s').
Proof.
  apply (only_logout_without_session_throws world (memory toy_bcrypt)
           PostLogout (anonymous VUndefined "") empty_world).
  split; reflexivity.
Defined.

Lemma at_most_one_write_per_request_witness :
  In PutTask mutating_routes /\
  model_of (Update Task (VObj (task_fields (VObj []))) (VStr "1")) = resource PutTask.
Proof.
  destruct (at_most_one_write_per_request world (memory toy_bcrypt) PutTask
              (anonymous (VObj []) "1") empty_world) as (_ & H & _).
  apply H; [simpl; auto | reflexivity].
Defined.

(** ** Login and logout *)

(** X6. A login that finds the user and whose password verifies, on a
    request that has a session, answers 200 with the [id], [username] and
    [email] of the user and nothing else of the record, and writes exactly
    these three values to the session, in this order. *)
Theorem login_fills_the_session
    (S : Type) (I : interp S) (req : request) (ses : Session)
    (s s1 s2 : S) (found valid : value) :
  nullish (body req) = false ->
  session req = Some ses ->
  I (FindOne User "email" (prop (body req) "email")) s = (Returns found, s1) ->
  truthy found = true ->
  I (BcryptCompare (prop (body req) "password") (prop found "password")) s1
    = (Returns valid, s2) ->
  truthy valid = true ->
  fst (run I (serve PostLogin req) s)
  = Returns (mkResponse 200
      (VObj [("message", VStr "Login successful");
             ("user", VObj [("id", prop found "id");
                            ("username", prop found "username");
                            ("email", prop found "email")])])) /\
  calls I (serve PostLogin req) s
  = [FindOne User "email" (prop (body req) "email");
     BcryptCompare (prop (body req) "password") (prop found "password");
     SessionSet "userId" (prop found "id");
     SessionSet "username" (prop found "username");
     SessionSet "userEmail" (prop found "email")].
Proof.
  intros N E F T C V. unfold_handlers. rewrite N, E. cbn.
  rewrite F. cbn. rewrite T. cbn. rewrite C. cbn. rewrite V. cbn.
  repeat match goal with
         | |- context [I ?c ?s] => destruct (I c s) as [? ?]; cbn
         end.
  split; reflexivity.
Qed.

Lemma login_fills_the_session_witness :
  calls (memory toy_bcrypt)
        (serve PostLogin
           (with_session (login_request "a@x.com" "p") (Some blank_session)))
        one_user
  = [FindOne User "email" (VStr "a@x.com");
     BcryptCompare (VStr "p") (VStr "$2a$10$p");
     SessionSet "userId" (VNum 1);
     SessionSet "username" (VStr "a");
     SessionSet "userEmail" (VStr "a@x.com")].
Proof.
  apply (login_fills_the_session world (memory toy_bcrypt)
           (with_session (login_request "a@x.com" "p") (Some blank_session))
           blank_session one_user one_user one_user
           (VObj [("id", VNum 1); ("username", VStr "a");
                  ("email", VStr "a@x.com"); ("password", VStr "$2a$10$p")])
           (VBool true));
    reflexivity.
Defined.

(** X7. Login writes to the session exactly when it answers 200: a login
    that fails, for whatever reason, leaves the session untouched. *)
Theorem session_is_written_iff_login_succeeds
    (S : Type) (I : interp S) (req : request) (s : S) :
  existsb is_session_write (calls I (serve PostLogin req) s) = true <->
  exists resp s', run I (serve PostLogin req) s = (Returns resp, s') /\
                  status resp = 200.
Proof.
  unfold_handlers. cbn. repeat step;
    (split; [intros H; try discriminate H; eexists; eexists; split; reflexivity
            | intros (resp & s' & R & C); inversion R; subst;
              try discriminate C; reflexivity]).
Qed.

(** X8. When [req.session] is unset, a login with the right credentials
    is answered 500 "Failed to login": the assignment to the session
    throws inside the [try] block. *)
Theorem login_without_session_object_fails
    (S : Type) (I : interp S) (req : request) (s s1 s2 : S)
    (found valid : value) :
  nullish (body req) = false ->
  session req = None ->
  I (FindOne User "email" (prop (body req) "email")) s = (Returns found, s1) ->
  truthy found = true ->
  I (BcryptCompare (prop (body req) "password") (prop found "password")) s1
    = (Returns valid, s2) ->
  truthy valid = true ->
  fst (run I (serve PostLogin req) s)
  = Returns (mkResponse 500 (VObj [("error", VStr "Failed to login")])) /\
  existsb is_session_write (calls I (serve PostLogin req) s) = false.
Proof.
  intros N E F T C V. unfold_handlers. rewrite N, E. cbn.
  rewrite F. cbn. rewrite T. cbn. rewrite C. cbn. rewrite V. cbn.
  destruct (I _ s2) as [? ?]. split; reflexivity.
Qed.

Lemma login_without_session_object_fails_witness :
  fst (run (memory toy_bcrypt) (serve PostLogin (login_request "a@x.com" "p"))
           one_user)
  = Returns (mkResponse 500 (VObj [("error", VStr "Failed to login")])).
Proof.
  apply (login_without_session_object_fails world (memory toy_bcrypt)
           (login_request "a@x.com" "p") one_user one_user one_user
           (VObj [("id", VNum 1); ("username", VStr "a");
                  ("email", VStr "a@x.com"); ("password", VStr "$2a$10$p")])
           (VBool true));
    reflexivity.
Defined.

(** X9. A user whose [id] is falsy logs in with 200, and the session that
    login wrote is then refused by the gate with 401. *)
Theorem falsy_id_logs_in_but_is_not_admitted
    (S : Type) (I : interp S) (req : request) (ses : Session)
    (s s1 s2 : S) (found valid : value) :
  nullish (body req) = false ->
  session req = Some ses ->
  I (FindOne User "email" (prop (body req) "email")) s = (Returns found, s1) ->
  truthy found = true ->
  I (BcryptCompare (prop (body req) "password") (prop found "password")) s1
    = (Returns valid, s2) ->
  truthy valid = true ->
  truthy (prop found "id") = false ->
  (exists resp s', run I (serve PostLogin req) s = (Returns resp, s') /\
                   status resp = 200) /\
  In (SessionSet "userId" (prop found "id")) (calls I (serve PostLogin req) s) /\
  forall (r : route) (q : request),
    gated r = true ->
    serve r (with_session q
               (Some (mkSession (prop found "id") (prop found "username")
                                (prop found "email"))))
    = Ret unauthenticated.
Proof.
  intros N E F T C V Z. split; [| split].
  - unfold_handlers. rewrite N, E. cbn.
    rewrite F. cbn. rewrite T. cbn. rewrite C. cbn. rewrite V. cbn.
    repeat match goal with
           | |- context [I ?c ?s] => destruct (I c s) as [? ?]; cbn
           end.
    eexists. eexists. split; reflexivity.
  - unfold_handlers. rewrite N, E. cbn.
    rewrite F. cbn. rewrite T. cbn. rewrite C. cbn. rewrite V. cbn.
    destruct (I _ s2). simpl. auto.
  - intros r q G. destruct r; try discriminate G;
      unfold_handlers; cbn; rewrite Z; reflexivity.
Qed.

(** X10. Logout on a request that has a session makes one call, the
    destruction of the session, and never touches the store: it answers
    200 "Logout successful" when the destruction succeeds and 500
    "Failed to logout" when it reports an error, which goes to the console
    and not into the response. *)
Theorem logout_destroys_the_session
    (S : Type) (I : interp S) (req : request) (ses : Session) (s : S) :
  session req = Some ses ->
  hd_error (calls I (serve PostLogout req) s) = Some SessionDestroy /\
  (forall c, In c (calls I (serve PostLogout req) s) -> is_persistence c = false) /\
  (forall v s1, I SessionDestroy s = (Returns v, s1) ->
     run I (serve PostLogout req) s
     = (Returns (mkResponse 200 (VObj [("message", VStr "Logout successful")])),
        s1)) /\
  (forall err s1, I SessionDestroy s = (Throws err, s1) ->
     fst (run I (serve PostLogout req) s)
     = Returns (mkResponse 500 (VObj [("error", VStr "Failed to logout")])) /\
     calls I (serve PostLogout req) s
     = [SessionDestroy; ConsoleError "Error destroying the session" err]).
Proof.
  intros E. unfold_handlers. rewrite E. cbn.
  destruct (I SessionDestroy s) as [[v | err] s1] eqn:D; cbn.
  - split; [reflexivity |]. split; [| split].
    + intros c [<- | []]. reflexivity.
    + intros v' s1' H. inversion H. reflexivity.
    + intros err s1' H. discriminate H.
  - destruct (I _ s1) as [? ?] eqn:L. cbn.
    split; [reflexivity |]. split; [| split].
    + intros c [<- | [<- | []]]; reflexivity.
    + intros v s1' H. discriminate H.
    + intros err' s1' H. inversion H; subst. split; reflexivity.
Qed.

Lemma logout_destroys_the_session_witness :
  hd_error (calls (memory toy_bcrypt) (serve PostLogout with_alice) empty_world)
  = Some SessionDestroy.
Proof.
  apply (logout_destroys_the_session world (memory toy_bcrypt) with_alice alice
           empty_world eq_refl).
Defined.

Lemma session_is_written_iff_login_succeeds_witness :
  existsb is_session_write
    (calls (memory toy_bcrypt)
       (serve PostLogin
          (with_session (login_request "a@x.com" "p") (Some blank_session)))
       one_user) = true.
Proof.
  apply (session_is_written_iff_login_succeeds world (memory toy_bcrypt)
           (with_session (login_request "a@x.com" "p") (Some blank_session))
           one_user).
  eexists. eexists. split; reflexivity.
Defined.

Lemma falsy_id_logs_in_but_is_not_admitted_witness :
  serve GetProjects
    (with_session with_alice
       (Some (mkSession (VNum 0) (VStr "z") (VStr "z@x.com"))))
  = Ret unauthenticated.
Proof.
  destruct (falsy_id_logs_in_but_is_not_admitted world (memory toy_bcrypt)
              (with_session (login_request "z@x.com" "p") (Some blank_session))
              blank_session user_zero user_zero user_zero
              (VObj [("id", VNum 0); ("username", VStr "z");
                     ("email", VStr "z@x.com"); ("password", VStr "$2a$10$p")])
              (VBool true)
              eq_refl eq_refl eq_refl eq_refl eq_refl eq_refl eq_refl)
    as (_ & _ & H).
  apply (H GetProjects with_alice). reflexivity.
Defined.

(** ** Registration and the password *)

(** X11. Registration never hands the password of the body to the store.
    A record is created only after [User.findOne] found no user and
    [bcrypt.hash], called on the password of the body with 10 salt rounds
    in the state [findOne] left, resolved to a value; the record is then a
    user whose [password] is that value. In every other case, in
    particular when hashing raises, no record is created; the password is
    hashed at most once and one record at most is created. *)
Theorem only_the_hash_is_stored
    (S : Type) (I : interp S) (req : request) (s : S) :
  (forall m o, In (Create m o) (calls I (serve PostRegister req) s) ->
     m = User /\
     nullish (body req) = false /\
     exists (found : value) (s1 s2 : S) (h : value),
       I (FindOne User "email" (prop (body req) "email")) s = (Returns found, s1) /\
       truthy found = false /\
       I (BcryptHash (prop (body req) "password") 10) s1 = (Returns h, s2) /\
       o = VObj [("username", prop (body req) "username");
                 ("email", prop (body req) "email");
                 ("password", h)]) /\
  (forall found s1 e s2,
     I (FindOne User "email" (prop (body req) "email")) s = (Returns found, s1) ->
     I (BcryptHash (prop (body req) "password") 10) s1 = (Throws e, s2) ->
     forall m o, ~ In (Create m o) (calls I (serve PostRegister req) s)) /\
  (length (filter is_write (calls I (serve PostRegister req) s)) <= 1)%nat /\
  (length (filter (fun c => match c with BcryptHash _ _ => true | _ => false end)
             (calls I (serve PostRegister req) s)) <= 1)%nat.
Proof.
  unfold_handlers. cbn. repeat step.
  all: split; [| split; [| split; simpl; lia]].
  all: try (intros m o C; simpl in C;
            repeat match goal with
                   | H : _ \/ _ |- _ => destruct H as [H | H]
                   | H : False |- _ => destruct H
                   end;
            first [ discriminate C
                  | inversion C; subst;
                    split; [reflexivity |]; split; [reflexivity |];
                    do 4 eexists;
                    split; [first [eassumption | reflexivity] |];
                    split; [first [eassumption | reflexivity] |];
                    split; [first [eassumption | reflexivity] | reflexivity] ]).
  all: intros found' st1 exn st2 Found Hashed m o C; simpl in C;
    repeat match goal with
           | H : _ \/ _ |- _ => destruct H as [H | H]
           | H : False |- _ => destruct H
           end;
    try discriminate C; congruence.
Qed.

Lemma only_the_hash_is_stored_witness :
  ~ In (Create User
          (VObj [("username", VStr "a"); ("email", VStr "a@x.com");
                 ("password", VUndefined)]))
       (calls (memory toy_bcrypt)
          (serve PostRegister
             (anonymous (VObj [("username", VStr "a");
                               ("email", VStr "a@x.com")]) ""))
          empty_world).
Proof.
  destruct (only_the_hash_is_stored world (memory toy_bcrypt)
              (anonymous (VObj [("username", VStr "a");
                                ("email", VStr "a@x.com")]) "")
              empty_world) as (_ & H & _).
  apply (H VNull empty_world (VStr "Illegal arguments") empty_world);
    reflexivity.
Defined.

(** ** The keys of the store *)

Lemma lookup_id_assign (values : row) :
  leaves_id values = true ->
  forall r, lookup "id" (assign values r) = lookup "id" r.
Proof.
  unfold assign, leaves_id.
  induction values as [| [f v] values IH]; simpl; intros H r.
  - reflexivity.
  - apply andb_true_iff in H as [H1 H2]. rewrite (IH H2), lookup_set_field.
    apply negb_true_iff in H1. rewrite String.eqb_sym, H1. reflexivity.
Qed.

Lemma id_below_mono (a b : Z) (r : row) :
  a <= b -> id_below a r = true -> id_below b r = true.
Proof.
  unfold id_below. destruct (lookup "id" r); try discriminate.
  intros L H. apply Z.ltb_lt in H. apply Z.ltb_lt. lia.
Qed.

Lemma ids_stay_distinct_in_a_selection (keep : row -> bool) (l : list row) :
  NoDup (map (lookup "id") l) ->
  NoDup (map (lookup "id") (filter keep l)).
Proof.
  induction l as [| r l IH]; simpl; intros D; [constructor |].
  inversion D as [| i ids Fresh Rest]; subst.
  specialize (IH Rest).
  destruct (keep r); simpl; [| exact IH].
  constructor; [| exact IH].
  intros Again. apply Fresh.
  apply in_map_iff in Again as (r' & Same & Kept).
  apply filter_In in Kept as [Kept _].
  rewrite <- Same. apply in_map. exact Kept.
Qed.

Lemma create_ok (values : value) (t : table) :
  table_ok t -> table_ok (snd (create values t)).
Proof.
  intros [F N]. unfold create, table_ok. cbn. split.
  - rewrite forallb_app. apply andb_true_iff. split.
    + rewrite forallb_forall in *. intros r I.
      apply (id_below_mono (next_id t)); [lia | auto].
    + cbn. unfold id_below. cbn.
      rewrite andb_true_r. apply Z.ltb_lt. lia.
  - rewrite map_app. cbn. apply NoDup_app; [exact N | repeat constructor; auto |].
    intros v I [<- | []]. apply in_map_iff in I as (r & E & I).
    rewrite forallb_forall in F. specialize (F r I).
    unfold id_below in F. rewrite E in F. apply Z.ltb_lt in F. lia.
Qed.

Lemma update_ok (values k : value) (t : table) :
  leaves_id (fields_of values) = true ->
  table_ok t -> table_ok (snd (update values k t)).
Proof.
  intros L [F N]. unfold update, table_ok. cbn.
  assert (E : map (lookup "id")
                (map (fun r => if has_key k r
                               then assign (fields_of values) r else r) (rows t))
              = map (lookup "id") (rows t)).
  { rewrite map_map. apply map_ext. intros r.
    destruct (has_key k r); [apply lookup_id_assign; exact L | reflexivity]. }
  split; [| rewrite E; exact N].
  rewrite forallb_forall in *. intros r I.
  apply in_map_iff in I as (r0 & <- & I0). specialize (F r0 I0).
  destruct (has_key k r0); [| exact F].
  unfold id_below in *. rewrite lookup_id_assign by exact L. exact F.
Qed.

Lemma destroy_ok (k : value) (t : table) :
  table_ok t -> table_ok (snd (destroy k t)).
Proof.
  intros [F N]. unfold destroy, table_ok. cbn. split.
  - rewrite forallb_forall in *. intros r I.
    apply filter_In in I as [I _]. auto.
  - apply ids_stay_distinct_in_a_selection. exact N.
Qed.

Lemma set_table_ok (m : model) (t : table) (w : world) :
  table_ok t -> world_ok w -> world_ok (set_table m t w).
Proof.
  intros T (P & K & U). destruct m; unfold world_ok; cbn; auto.
Qed.

Lemma table_of_ok (m : model) (w : world) :
  world_ok w -> table_ok (table_of m w).
Proof.
  intros (P & K & U). destruct m; assumption.
Qed.

Lemma memory_ok (B : Bcrypt) (c : call) (w : world) :
  keeps_ids c = true -> world_ok w -> world_ok (snd (memory B c w)).
Proof.
  intros K W. destruct c; cbn; try exact W.
  - apply set_table_ok; [| exact W].
    apply (create_ok values), table_of_ok, W.
  - apply set_table_ok; [| exact W].
    apply (update_ok values id); [exact K | apply table_of_ok, W].
  - apply set_table_ok; [| exact W].
    apply (destroy_ok id), table_of_ok, W.
Qed.

Lemma run_ok (B : Bcrypt) {A : Type} (p : prog A) :
  forall w,
    (forall c, In c (calls (memory B) p w) -> keeps_ids c = true) ->
    world_ok w -> world_ok (snd (run (memory B) p w)).
Proof.
  induction p as [a | e | c k IH]; intros w H W; [exact W | exact W |].
  simpl in *. pose proof (memory_ok B c w) as M.
  destruct (memory B c w) as [o w'] eqn:E. simpl in H, M.
  apply IH.
  - intros c' I. apply H. right. exact I.
  - apply M; [apply H; left; reflexivity | exact W].
Qed.

Lemma routes_keep_ids (S : Type) (I : interp S) (r : route) (req : request)
    (s : S) (c : call) :
  In c (calls I (serve r req) s) -> keeps_ids c = true.
Proof.
  destruct r; unfold_handlers; cbn; repeat step;
    intros H; simpl in H;
    repeat match goal with
           | H : _ \/ _ |- _ => destruct H as [H | H]
           | H : False |- _ => destruct H
           end;
    subst c; reflexivity.
Qed.

(** X12. Served from the in-memory store, no route can change, reuse or
    duplicate a key: if in every table the keys are distinct numbers below
    the next key to be given, they still are after any request, whatever
    its body, its path parameter and its session. The empty store is such
    a store. *)
Theorem every_route_keeps_the_keys_distinct
    (B : Bcrypt) (r : route) (req : request) (w : world) :
  world_ok w ->
  world_ok (snd (run (memory B) (serve r req) w)) /\
  world_ok empty_world.
Proof.
  intros W. split.
  - apply run_ok; [| exact W].
    intros c. apply routes_keep_ids.
  - unfold world_ok, table_ok. cbn. repeat split; constructor.
Qed.

Lemma every_route_keeps_the_keys_distinct_witness :
  world_ok (snd (run (memory toy_bcrypt)
                   (serve PutProject
                      (anonymous (VObj [("id", VNum 5); ("name", VStr "m")]) "1"))
                   one_project)).
Proof.
  apply (every_route_keeps_the_keys_distinct toy_bcrypt PutProject
           (anonymous (VObj [("id", VNum 5); ("name", VStr "m")]) "1")
           one_project).
  unfold world_ok, table_ok. cbn.
  repeat split; repeat constructor; simpl; tauto.
Defined.

(** ** After a delete *)



(** ** Repeating an update *)












(** ** Register, log in, list *)

Lemma find_appended {A : Type} (f : A -> bool) (l : list A) (x : A) :
  find f l = None -> f x = true -> find f (l ++ [x]) = Some x.
Proof.
  intros N H. induction l as [| a l IH]; simpl in *.
  - rewrite H. reflexivity.
  - destruct (f a); [discriminate N | apply IH; exact N].
Qed.

(** X16. Registration, login and the gate fit together on the in-memory
    store. When the email is not taken and [bcrypt.compare] accepts the
    password against the hash [bcrypt.hash] gave for it, registration
    answers 201, a login with the same email and password then answers
    200 and leaves in the session the key, username and email of the new
    user, and with that session GET /api/projects answers 200 with all
    projects, while without a session it answers 401. *)
Theorem registered_user_logs_in_and_lists
    (B : Bcrypt) (w : world) (reg login list : request)
    (ses : Session) (h valid : value) :
  nullish (body reg) = false ->
  nullish (body login) = false ->
  prop (body login) "email" = prop (body reg) "email" ->
  prop (body login) "password" = prop (body reg) "password" ->
  find_one "email" (prop (body reg) "email") (users w) = VNull ->
  bcrypt_hash B (prop (body reg) "password") 10 = Returns h ->
  bcrypt_compare B (prop (body reg) "password") h = Returns valid ->
  truthy valid = true ->
  next_id (users w) <> 0 ->
  session login = Some ses ->
  stored_session w = Some ses ->
  exists w1 w2 r1 r2,
    run (memory B) (serve PostRegister reg) w = (Returns r1, w1) /\
    status r1 = 201 /\
    run (memory B) (serve PostLogin login) w1 = (Returns r2, w2) /\
    status r2 = 200 /\
    stored_session w2
      = Some (mkSession (VNum (next_id (users w)))
                        (prop (body reg) "username")
                        (prop (body reg) "email")) /\
    run (memory B) (serve GetProjects (with_session list (stored_session w2))) w2
      = (Returns (mkResponse 200 (find_all (projects w))), w2) /\
    run (memory B) (serve GetProjects (with_session list None)) w2
      = (Returns unauthenticated, w2).
Proof.
  intros Nr Nl Em Pw Free Hash Cmp Valid Key Ses Stored.
  assert (F : find (fun r => value_eqb (lookup "email" r) (prop (body reg) "email"))
                   (rows (users w)) = None).
  { unfold find_one in Free. destruct (find _ _); [discriminate Free | reflexivity]. }
  assert (R1 : run (memory B) (serve PostRegister reg) w
               = (Returns (mkResponse 201
                    (VObj [("message", VStr "User registered successfully");
                           ("user", VObj [("id", VNum (next_id (users w)));
                                          ("username", prop (body reg) "username");
                                          ("email", prop (body reg) "email")])])),
                  set_table User
                    (mkTable (rows (users w) ++
                                [[("id", VNum (next_id (users w)));
                                  ("username", prop (body reg) "username");
                                  ("email", prop (body reg) "email");
                                  ("password", h)]])
                             (next_id (users w) + 1)) w)).
  { unfold_handlers. rewrite Nr. cbn. unfold find_one. rewrite F. cbn.
    rewrite Hash. reflexivity. }
  eexists. eexists. eexists. eexists.
  split; [exact R1 |]. split; [reflexivity |].
  assert (R2 : forall w1,
             w1 = set_table User
                    (mkTable (rows (users w) ++
                                [[("id", VNum (next_id (users w)));
                                  ("username", prop (body reg) "username");
                                  ("email", prop (body reg) "email");
                                  ("password", h)]])
                             (next_id (users w) + 1)) w ->
             run (memory B) (serve PostLogin login) w1
             = (Returns (mkResponse 200
                  (VObj [("message", VStr "Login successful");
                         ("user", VObj [("id", VNum (next_id (users w)));
                                        ("username", prop (body reg) "username");
                                        ("email", prop (body reg) "email")])])),
                mkWorld (projects w) (tasks w) (users w1)
                  (Some (mkSession (VNum (next_id (users w)))
                                   (prop (body reg) "username")
                                   (prop (body reg) "email")))
                  (console w))).
  { intros w1 ->. unfold_handlers. rewrite Nl, Ses. cbn.
    unfold find_one. cbn [rows]. rewrite Em.
    rewrite (find_appended _ _ _ F) by (cbn; apply value_eqb_refl).
    cbn. rewrite Pw, Cmp. cbn. rewrite Valid. cbn. rewrite Stored. reflexivity. }
  split; [apply R2; reflexivity |]. split; [reflexivity |].
  split; [reflexivity |]. cbn.
  split; [| reflexivity].
  unfold_handlers. cbn.
  destruct (next_id (users w) =? 0) eqn:Z;
    [apply Z.eqb_eq in Z; contradiction |].
  reflexivity.
Qed.

Lemma registered_user_logs_in_and_lists_witness :
  exists w2,
    run (memory toy_bcrypt) (serve GetProjects (with_session with_alice (stored_session w2))) w2
      = (Returns (mkResponse 200 (VArr [])), w2).
Proof.
  destruct (registered_user_logs_in_and_lists toy_bcrypt
              (mkWorld empty_table empty_table empty_table (Some blank_session) [])
              (register_request "a" "a@x.com" "p")
              (with_session (login_request "a@x.com" "p") (Some blank_session))
              with_alice blank_session (VStr "$2a$10$p") (VBool true)
              eq_refl eq_refl eq_refl eq_refl eq_refl eq_refl eq_refl eq_refl)
    as (w1 & w2 & r1 & r2 & _ & _ & _ & _ & _ & H & _);
    [discriminate | reflexivity | reflexivity |].
  exists w2. exact H.
Defined.

(** ** Requests without a body *)

(** X17. When [req.body] is null or undefined, every route that reads the
    body answers 500 with its fixed message and makes no call to the
    store, [bcrypt] or the session (a gated route, once the gate is
    passed). The other routes never read the body: their behaviour is the
    same for every body. *)
Theorem missing_body_is_a_500
    (S : Type) (I : interp S) (r : route) (req : request) (s : S) :
  (In r body_routes ->
   nullish (body req) = true ->
   (gated r = true -> logged_in req = true) ->
   fst (run I (serve r req) s)
     = Returns (mkResponse 500 (VObj [("error", VStr (failure_message r))])) /\
   exists logmsg e, calls I (serve r req) s = [ConsoleError logmsg e]) /\
  (~ In r body_routes ->
   forall b, serve r (with_body req b) = serve r req).
Proof.
  split.
  - intros H N G. unfold logged_in in G.
    simpl in H.
    repeat (destruct H as [<- | H];
      [unfold_handlers; cbn; try rewrite N;
       try (specialize (G eq_refl);
            destruct (session req) as [ses |]; [| discriminate G];
            rewrite G);
       cbn; try rewrite N; cbn;
       destruct (I _ s) as [? ?]; cbn;
       split; [reflexivity | eexists; eexists; reflexivity] |]).
    destruct H.
  - intros H b.
    destruct r; try (exfalso; apply H; simpl; tauto); reflexivity.
Qed.

Lemma missing_body_is_a_500_witness :
  fst (run (memory toy_bcrypt) (serve PutTask (anonymous VUndefined "1")) empty_world)
  = Returns (mkResponse 500 (VObj [("error", VStr "Failed to update task")])).
Proof.
  destruct (missing_body_is_a_500 world (memory toy_bcrypt) PutTask
              (anonymous VUndefined "1") empty_world) as (H & _).
  apply H; [simpl; tauto | reflexivity | discriminate].
Defined.
